(** * Multi-tenant configuration resolution for Ory Kratos

  A shallow embedding of
    - [x/tenant_middleware.go]       (package [x]): the tenant identifier
      extractor, the HTTP middleware and the context accessors;
    - [driver/config/tenant_manager.go] (package [config]): the
      [TenantManager] cache, its watchers and [TenantAwareConfig].

  Go strings are byte sequences: they are modelled by [string], whose
  characters are the 8-bit [ascii] values.  Go maps are [gmap]s. *)

From Stdlib Require Import String Ascii List.
From stdpp Require Import base decidable option list strings gmap fin_maps.

Local Open Scope string_scope.

(** ** Package [strings] of the Go standard library (the part used) *)

Module GoStrings.

Definition byte (n : nat) : ascii := ascii_of_nat n.

(** [asciiSpace] of [strings.TrimSpace]: tab, newline, vertical tab, form
    feed, carriage return and space. *)
Definition asciiSpace (c : ascii) : bool :=
  let n := nat_of_ascii c in
  (n =? 9)%nat || (n =? 10)%nat || (n =? 11)%nat || (n =? 12)%nat
  || (n =? 13)%nat || (n =? 32)%nat.

(** [unicode.IsSpace] on the runes that UTF-8 encodes on two bytes:
    U+0085 (NEL) is [C2 85] and U+00A0 (NBSP) is [C2 A0]. *)
Definition space2 (a b : ascii) : bool :=
  let x := nat_of_ascii a in
  let y := nat_of_ascii b in
  (x =? 194)%nat && ((y =? 133)%nat || (y =? 160)%nat).

(** [unicode.IsSpace] on the runes that UTF-8 encodes on three bytes:
    U+1680 [E1 9A 80], U+2000..U+200A [E2 80 80..8A], U+2028 and U+2029
    [E2 80 A8], [E2 80 A9], U+202F [E2 80 AF], U+205F [E2 81 9F] and
    U+3000 [E3 80 80]. *)
Definition space3 (a b c : ascii) : bool :=
  let x := nat_of_ascii a in
  let y := nat_of_ascii b in
  let z := nat_of_ascii c in
  ((x =? 225)%nat && (y =? 154)%nat && (z =? 128)%nat)
  || ((x =? 226)%nat && (y =? 128)%nat
      && (((128 <=? z)%nat && (z <=? 138)%nat)
          || (z =? 168)%nat || (z =? 169)%nat || (z =? 175)%nat))
  || ((x =? 226)%nat && (y =? 129)%nat && (z =? 159)%nat)
  || ((x =? 227)%nat && (y =? 128)%nat && (z =? 128)%nat).

(** [strings.TrimLeftFunc(s, unicode.IsSpace)]: runes are decoded from the
    front; a white-space rune is dropped, anything else (an invalid byte
    decodes as U+FFFD, which is no white space) stops the scan. *)
Fixpoint TrimLeftSpace (s : string) : string :=
  match s with
  | EmptyString => s
  | String a t =>
      if asciiSpace a then TrimLeftSpace t
      else
        match t with
        | EmptyString => s
        | String b t2 =>
            if space2 a b then TrimLeftSpace t2
            else
              match t2 with
              | EmptyString => s
              | String c t3 => if space3 a b c then TrimLeftSpace t3 else s
              end
        end
  end.

Fixpoint rev_string (acc s : string) : string :=
  match s with
  | EmptyString => acc
  | String c t => rev_string (String c acc) t
  end.

(** The scan of [strings.TrimRightFunc(s, unicode.IsSpace)] on the reversed
    string: [utf8.DecodeLastRuneInString] walks back to the lead byte, so
    the encodings are met last byte first. *)
Fixpoint TrimLeftSpace_rev (s : string) : string :=
  match s with
  | EmptyString => s
  | String a t =>
      if asciiSpace a then TrimLeftSpace_rev t
      else
        match t with
        | EmptyString => s
        | String b t2 =>
            if space2 b a then TrimLeftSpace_rev t2
            else
              match t2 with
              | EmptyString => s
              | String c t3 =>
                  if space3 c b a then TrimLeftSpace_rev t3 else s
              end
        end
  end.

Definition TrimRightSpace (s : string) : string :=
  rev_string "" (TrimLeftSpace_rev (rev_string "" s)).

(** [strings.TrimSpace]. *)
Definition TrimSpace (s : string) : string :=
  TrimRightSpace (TrimLeftSpace s).

(** The scan of [strings.Replace(s, old, "", -1)] for a non-empty [old]:
    the leftmost occurrence is cut out and the search resumes behind it,
    so occurrences never overlap.  [skip] counts the bytes of the current
    occurrence that are still to be dropped. *)
Fixpoint cut (old : string) (skip : nat) (s : string) : string :=
  match s with
  | EmptyString => EmptyString
  | String c t =>
      match skip with
      | S k => cut old k t
      | O =>
          if String.prefix old s then cut old (String.length old - 1) t
          else String c (cut old 0 t)
      end
  end.

(** [strings.ReplaceAll(s, old, "")].  Go returns [s] itself when
    [old == new], which is the case of the empty [old] here. *)
Definition ReplaceAll_empty (s old : string) : string :=
  match old with
  | EmptyString => s
  | _ => cut old 0 s
  end.

(** [strings.Contains(s, substr)]. *)
Fixpoint Contains (s substr : string) : bool :=
  String.prefix substr s
  || match s with
     | EmptyString => false
     | String _ t => Contains t substr
     end.

(** The string made of one byte. *)
Definition one (c : ascii) : string := String c EmptyString.

End GoStrings.

(** ** Package [context] and dynamically typed values *)

Module GoContext.

(** The Go types that occur as dynamic types of context keys and values. A
    defined type is identified by its package and name: [x.TenantContextKey]
    and [config.TenantContextKey] are two types although both are declared
    as [type TenantContextKey string]. *)
Inductive GoType : Type :=
| T_string
| T_int
| T_bool
| T_named (pkg name : string).

Inductive GoData : Type :=
| D_string (s : string)
| D_int (z : Z)
| D_bool (b : bool).

(** An interface value ([any]): [Nil], or a dynamic type with its data. *)
Inductive Any : Type :=
| Nil
| Dyn (t : GoType) (d : GoData).

#[global] Instance GoType_eq_dec : EqDecision GoType.
Proof. solve_decision. Defined.
#[global] Instance GoData_eq_dec : EqDecision GoData.
Proof. solve_decision. Defined.
#[global] Instance Any_eq_dec : EqDecision Any.
Proof. solve_decision. Defined.

(** [context.Background()] and the [valueCtx] chain built by
    [context.WithValue]. *)
Inductive Context : Type :=
| Background
| WithValue (parent : Context) (key val : Any).

(** [ctx.Value(key)]: the innermost binding whose key is [==] to [key]
    (same dynamic type, same data); [nil] when there is none. *)
Fixpoint Value (ctx : Context) (key : Any) : Any :=
  match ctx with
  | Background => Nil
  | WithValue parent k v => if decide (k = key) then v else Value parent key
  end.

(** The type assertion [v.(string)] in its two-result form. *)
Definition assert_string (v : Any) : option string :=
  match v with
  | Dyn T_string (D_string s) => Some s
  | _ => None
  end.

Definition of_string (s : string) : Any := Dyn T_string (D_string s).

(** A value that is no string: nothing ([nil], which is also what an absent
    key reads as) or a value of another dynamic type. *)
Definition not_a_string (v : Any) : Prop :=
  v = Nil \/ exists t d, v = Dyn t d /\ t <> T_string.

End GoContext.

(** ** Package [x]: [tenant_middleware.go] *)

Module X.
Import GoStrings GoContext.

(** [type TenantContextKey string] of package [x]. *)
Definition TenantContextKey (s : string) : Any :=
  Dyn (T_named "x" "TenantContextKey") (D_string s).

Definition TenantIDKey : Any := TenantContextKey "tenant_id".
Definition TenantIDHeader : string := "X-Tenant-Id".
Definition DefaultTenantID : string := "default".

(** [*http.Request]: the header map (keyed by canonical header names, as
    [net/http] stores them) and the request context. *)
Record Request : Type := mkRequest {
  Header : gmap string (list string);
  Context_ : Context
}.

(** [r.Header.Get(key)] for a key already in canonical form. *)
Definition Header_Get (h : gmap string (list string)) (key : string) : string :=
  match h !! key with
  | Some (v :: _) => v
  | _ => ""
  end.

Definition WithContext (r : Request) (ctx : Context) : Request :=
  {| Header := Header r; Context_ := ctx |}.

Definition extractTenantID (r : Request) : string :=
  let tenantID := TrimSpace (Header_Get (Header r) TenantIDHeader) in
  if decide (tenantID = "") then DefaultTenantID
  else
    let tenantID := ReplaceAll_empty tenantID ".." in
    let tenantID := ReplaceAll_empty tenantID "/" in
    let tenantID := ReplaceAll_empty tenantID "\" in
    if decide (tenantID = "") then DefaultTenantID else tenantID.

(** The handler returned by [TenantMiddleware()]; [next] is the rest of the
    chain and [rw] the response writer, handed on untouched. *)
Definition TenantMiddleware {RW R : Type}
    (rw : RW) (r : Request) (next : RW -> Request -> R) : R :=
  let tenantID := extractTenantID r in
  let ctx := WithValue (Context_ r) TenantIDKey (of_string tenantID) in
  next rw (WithContext r ctx).

Definition GetTenantID (ctx : Context) : string :=
  match assert_string (Value ctx TenantIDKey) with
  | Some tenantID => tenantID
  | None => DefaultTenantID
  end.

Definition SetTenantID (ctx : Context) (tenantID : string) : Context :=
  WithValue ctx TenantIDKey (of_string tenantID).

(** A request whose only header is [X-Tenant-Id: v]. *)
Definition request_with_tenant (v : string) (ctx : Context) : Request :=
  {| Header := {[ TenantIDHeader := [v] ]}; Context_ := ctx |}.

End X.

(** ** Package [config]: [tenant_manager.go] *)

Module Config.
Import GoContext.

(** A [*configx.Provider] is the address of a provider on the heap: two
    snapshots are the same instance when their addresses are equal. *)
Definition Provider : Type := nat.

(** The base [*Config].  Its declaration is in [config.go]; the manager only
    calls its method [GetProvider(ctx)], which is what the record holds. *)
Record Config : Type := mkConfig {
  GetProvider : Context -> Provider
}.

(** [sync.RWMutex]: whether a writer holds it, and how many readers do. *)
Record RWMutex : Type := mkRWMutex {
  writer : bool;
  readers : nat
}.

(** The closure stored in [tm.watchers]: it captures [tenantID] and
    [watcherProvider]. *)
Record Cleanup : Type := mkCleanup {
  cl_tenantID : string;
  cl_watcherProvider : Provider
}.

(** [type TenantManager struct].  The [logger] field is the sink whose
    output is the [log] of the [World] below. *)
Record TenantManager : Type := mkTenantManager {
  mu : RWMutex;
  baseConfig : Config;
  tenantConfigs : gmap string Provider;
  configDirectory : string;
  watchers : gmap string Cleanup
}.

Definition NewTenantManager (baseConfig : Config) (configDirectory : string)
  : TenantManager :=
  {| mu := {| writer := false; readers := 0 |};
     baseConfig := baseConfig;
     tenantConfigs := ∅;
     configDirectory := configDirectory;
     watchers := ∅ |}.

(** *** What lies outside the manager *)

(** The outcome of [os.Stat(path)]: no error, an error for which
    [os.IsNotExist] holds, or another error. *)
Inductive StatResult : Type := stat_ok | stat_not_exist | stat_error.

Definition IsNotExist (r : StatResult) : bool :=
  match r with stat_not_exist => true | _ => false end.

Inductive Level : Type := Debug | Info | Warn | Error.

Record LogEntry : Type := mkLog {
  level : Level;
  log_tenant_id : string;
  message : string
}.

(** The file system, the configuration library and the scheduler, as far
    as the manager observes them. *)
Record World : Type := mkWorld {
  (** [os.Stat] on a path *)
  fs_stat : string -> StatResult;
  (** does [configx.New] succeed on the file at this path? *)
  loadable : string -> bool;
  (** can [configx.AttachWatcher] be honoured for this path? *)
  watchable : string -> bool;
  (** the next free heap address *)
  next_provider : Provider;
  (** the paths handed to [configx.New] by [createTenantProvider], latest
      first *)
  loads : list string;
  (** the callbacks attached with [configx.AttachWatcher], with the
      [tenantID] and [configPath] each one captured *)
  subscriptions : list (string * string);
  (** what the logger has written, latest first *)
  log : list LogEntry;
  (** the goroutines started with [go] and not scheduled yet, with the
      [tenantID] and [configPath] each one captured *)
  spawned : list (string * string)
}.

Record State : Type := mkState {
  tm : TenantManager;
  world : World
}.

(** Nobody holds the mutex. *)
Definition unlocked (s : State) : Prop :=
  mu (tm s) = {| writer := false; readers := 0 |}.

Definition set_mu (m : RWMutex) (s : State) : State :=
  {| tm := {| mu := m;
              baseConfig := baseConfig (tm s);
              tenantConfigs := tenantConfigs (tm s);
              configDirectory := configDirectory (tm s);
              watchers := watchers (tm s) |};
     world := world s |}.

Definition set_tenantConfigs (c : gmap string Provider) (s : State) : State :=
  {| tm := {| mu := mu (tm s);
              baseConfig := baseConfig (tm s);
              tenantConfigs := c;
              configDirectory := configDirectory (tm s);
              watchers := watchers (tm s) |};
     world := world s |}.

Definition set_watchers (w : gmap string Cleanup) (s : State) : State :=
  {| tm := {| mu := mu (tm s);
              baseConfig := baseConfig (tm s);
              tenantConfigs := tenantConfigs (tm s);
              configDirectory := configDirectory (tm s);
              watchers := w |};
     world := world s |}.

Definition set_world (w : World) (s : State) : State :=
  {| tm := tm s; world := w |}.

Definition write_log (e : LogEntry) (w : World) : World :=
  {| fs_stat := fs_stat w; loadable := loadable w; watchable := watchable w;
     next_provider := next_provider w; loads := loads w;
     subscriptions := subscriptions w; log := e :: log w;
     spawned := spawned w |}.

Definition spawn (g : string * string) (w : World) : World :=
  {| fs_stat := fs_stat w; loadable := loadable w; watchable := watchable w;
     next_provider := next_provider w; loads := loads w;
     subscriptions := subscriptions w; log := log w;
     spawned := spawned w ++ [g] |}.

(** [configx.New] on [path] without a watcher: the call is recorded, and a
    new provider is allocated when the file loads. *)
Definition new_provider (path : string) (w : World) : option Provider * World :=
  if loadable w path then
    (Some (next_provider w),
     {| fs_stat := fs_stat w; loadable := loadable w; watchable := watchable w;
        next_provider := S (next_provider w); loads := path :: loads w;
        subscriptions := subscriptions w; log := log w;
        spawned := spawned w |})
  else
    (None,
     {| fs_stat := fs_stat w; loadable := loadable w; watchable := watchable w;
        next_provider := next_provider w; loads := path :: loads w;
        subscriptions := subscriptions w; log := log w;
        spawned := spawned w |}).

(** [configx.New] on [path] with [configx.AttachWatcher(callback)]: on
    success the callback is subscribed to the changes of the file. *)
Definition new_watcher (tenantID path : string) (w : World)
  : option Provider * World :=
  if loadable w path && watchable w path then
    (Some (next_provider w),
     {| fs_stat := fs_stat w; loadable := loadable w; watchable := watchable w;
        next_provider := S (next_provider w); loads := loads w;
        subscriptions := (tenantID, path) :: subscriptions w; log := log w;
        spawned := spawned w |})
  else (None, w).

(** *** Programs over the manager

    A method is a tree of the operations it performs on the shared state,
    each with the continuation that receives its answer.  The same tree is
    run alone ([exec]) or interleaved with others ([step]). *)

Inductive tmE : Type -> Type :=
| MuLock : tmE unit
| MuUnlock : tmE unit
| MuRLock : tmE unit
| MuRUnlock : tmE unit
(** [provider, exists := tm.tenantConfigs[tenantID]] *)
| CfgLookup (tenantID : string) : tmE (option Provider)
(** [tm.tenantConfigs[tenantID] = provider] *)
| CfgStore (tenantID : string) (provider : Provider) : tmE unit
(** [delete(tm.tenantConfigs, tenantID)] *)
| CfgDelete (tenantID : string) : tmE unit
(** [len(tm.tenantConfigs)] *)
| CfgLen : tmE nat
(** the keys met by [for tenantID := range tm.tenantConfigs] *)
| CfgRange : tmE (list string)
| WatchLookup (tenantID : string) : tmE (option Cleanup)
| WatchStore (tenantID : string) (cleanup : Cleanup) : tmE unit
| WatchDelete (tenantID : string) : tmE unit
| WatchLen : tmE nat
| WatchRange : tmE (list (string * Cleanup))
(** [tm.watchers = make(map[string]func())] *)
| WatchReset : tmE unit
(** [tm.baseConfig.GetProvider(ctx)] *)
| BaseGetProvider (ctx : Context) : tmE Provider
(** [tm.configDirectory] *)
| ConfigDirectory : tmE string
| OsStat (path : string) : tmE StatResult
(** [configx.New] with the options of [createTenantProvider]; [None] is a
    non-nil error *)
| ConfigxNew (path : string) : tmE (option Provider)
(** [configx.New] with the options of [setupTenantWatcher] *)
| ConfigxNewWatcher (tenantID path : string) : tmE (option Provider)
| Log (lvl : Level) (tenantID msg : string) : tmE unit
(** [go func() { ... preloadTenantConfig(..., tenantID, configPath) ... }()] *)
| Go (tenantID configPath : string) : tmE unit.

Inductive prog (A : Type) : Type :=
| Ret (a : A)
| Vis {X : Type} (e : tmE X) (k : X -> prog A).
Arguments Ret {A} a.
Arguments Vis {A X} e k.

Fixpoint bind {A B : Type} (m : prog A) (f : A -> prog B) : prog B :=
  match m with
  | Ret a => f a
  | Vis e k => Vis e (fun x => bind (k x) f)
  end.

Definition trigger {X : Type} (e : tmE X) : prog X := Vis e Ret.

Declare Scope prog_scope.
Delimit Scope prog_scope with prog.
Notation "x <- m ;; k" := (bind m (fun x => k))
  (at level 20, m at level 99, k at level 200, only parsing) : prog_scope.
Notation "m ;; k" := (bind m (fun _ => k))
  (at level 100, k at level 200, only parsing, right associativity) : prog_scope.
Local Open Scope prog_scope.

(** [tm.mu.Lock(); defer tm.mu.Unlock()] around the rest of a function. *)
Definition locked {A : Type} (body : prog A) : prog A :=
  trigger MuLock ;;
  r <- body ;;
  trigger MuUnlock ;;
  Ret r.

(** [tm.mu.RLock(); defer tm.mu.RUnlock()]. *)
Definition rlocked {A : Type} (body : prog A) : prog A :=
  trigger MuRLock ;;
  r <- body ;;
  trigger MuRUnlock ;;
  Ret r.

(** *** The answer of the shared state to one operation *)

Inductive reply (X : Type) : Type :=
| Step (x : X) (s : State)
(** the operation cannot proceed in this state: the goroutine waits *)
| Wait
(** the run time aborts the program (unlock of an unlocked mutex) *)
| Fatal.
Arguments Step {X} x s.
Arguments Wait {X}.
Arguments Fatal {X}.

(** [Lock] waits while the mutex is held in either mode, [RLock] while a
    writer holds it.  (Go also makes a new reader wait behind a writer that
    is waiting; without that rule the goroutines here can only do more.)
    A map operation is one step. *)
Definition handle {X : Type} (e : tmE X) : State -> reply X :=
  match e in tmE X return State -> reply X with
  | MuLock => fun s =>
      if writer (mu (tm s)) then Wait
      else match readers (mu (tm s)) with
           | O => Step tt (set_mu {| writer := true; readers := 0 |} s)
           | S _ => Wait
           end
  | MuUnlock => fun s =>
      if writer (mu (tm s))
      then Step tt (set_mu {| writer := false; readers := readers (mu (tm s)) |} s)
      else Fatal
  | MuRLock => fun s =>
      if writer (mu (tm s)) then Wait
      else Step tt (set_mu {| writer := false; readers := S (readers (mu (tm s))) |} s)
  | MuRUnlock => fun s =>
      match readers (mu (tm s)) with
      | O => Fatal
      | S n => Step tt (set_mu {| writer := writer (mu (tm s)); readers := n |} s)
      end
  | CfgLookup t => fun s => Step (tenantConfigs (tm s) !! t) s
  | CfgStore t p => fun s =>
      Step tt (set_tenantConfigs (<[t := p]> (tenantConfigs (tm s))) s)
  | CfgDelete t => fun s =>
      Step tt (set_tenantConfigs (delete t (tenantConfigs (tm s))) s)
  | CfgLen => fun s => Step (size (tenantConfigs (tm s))) s
  | CfgRange => fun s => Step ((map_to_list (tenantConfigs (tm s))).*1) s
  | WatchLookup t => fun s => Step (watchers (tm s) !! t) s
  | WatchStore t c => fun s =>
      Step tt (set_watchers (<[t := c]> (watchers (tm s))) s)
  | WatchDelete t => fun s =>
      Step tt (set_watchers (delete t (watchers (tm s))) s)
  | WatchLen => fun s => Step (size (watchers (tm s))) s
  | WatchRange => fun s => Step (map_to_list (watchers (tm s))) s
  | WatchReset => fun s => Step tt (set_watchers ∅ s)
  | BaseGetProvider ctx => fun s => Step (GetProvider (baseConfig (tm s)) ctx) s
  | ConfigDirectory => fun s => Step (configDirectory (tm s)) s
  | OsStat path => fun s => Step (fs_stat (world s) path) s
  | ConfigxNew path => fun s =>
      let '(r, w) := new_provider path (world s) in Step r (set_world w s)
  | ConfigxNewWatcher t path => fun s =>
      let '(r, w) := new_watcher t path (world s) in Step r (set_world w s)
  | Log lvl t msg => fun s =>
      Step tt (set_world (write_log (mkLog lvl t msg) (world s)) s)
  | Go t path => fun s => Step tt (set_world (spawn (t, path) (world s)) s)
  end.

(** *** One goroutine running alone *)

Inductive outcome (A : Type) : Type :=
| Done (a : A) (s : State)
(** the goroutine waits for something that nobody is left to provide: it
    never returns *)
| Blocked (s : State)
| Crashed (s : State).
Arguments Done {A} a s.
Arguments Blocked {A} s.
Arguments Crashed {A} s.

Fixpoint exec {A : Type} (p : prog A) (s : State) : outcome A :=
  match p with
  | Ret a => Done a s
  | Vis e k =>
      match handle e s with
      | Step x s' => exec (k x) s'
      | Wait => Blocked s
      | Fatal => Crashed s
      end
  end.

(** *** The methods of [TenantManager] *)

(** What [GetTenantConfigStats] returns, field by field of its map. *)
Record Stats : Type := mkStats {
  loaded_tenants_count : nat;
  active_watchers_count : nat;
  loaded_tenant_ids : list string;
  config_directory : string
}.

Definition logf (lvl : Level) (tenantID msg : string) : prog unit :=
  trigger (Log lvl tenantID msg).

(** A call of a closure stored in [tm.watchers]: [watcherProvider] is
    never nil in a stored closure, so its body is the log line. *)
Definition call_cleanup (cleanup : Cleanup) : prog unit :=
  logf Debug (cl_tenantID cleanup) "Tenant config watcher cleanup completed".

Fixpoint for_each {K : Type} (l : list K) (body : K -> prog unit) : prog unit :=
  match l with
  | [] => Ret tt
  | x :: l' => body x ;; for_each l' body
  end.

Section Methods.

(** [filepath.Join] of the platform the service runs on. *)
Variable filepath_Join : list string -> string.

Definition getTenantConfigPath (tenantID : string) : prog string :=
  dir <- trigger ConfigDirectory ;;
  Ret (filepath_Join [dir; tenantID; "kratos.yaml"]).

Definition createTenantProvider (ctx : Context) (configPath : string)
  : prog (option Provider) :=
  trigger (ConfigxNew configPath).

Definition setupTenantWatcher (tenantID configPath : string) : prog unit :=
  locked (
    o <- trigger (WatchLookup tenantID) ;;
    match o with
    | Some cleanup => call_cleanup cleanup
    | None => Ret tt
    end ;;
    r <- trigger (ConfigxNewWatcher tenantID configPath) ;;
    match r with
    | None =>
        logf Error tenantID "Failed to create file watcher for tenant config"
    | Some watcherProvider =>
        trigger (WatchStore tenantID (mkCleanup tenantID watcherProvider)) ;;
        logf Info tenantID
          "File watcher successfully attached for tenant configuration with hot-reload capability"
    end).

Definition loadTenantConfig (ctx : Context) (tenantID : string)
  : prog Provider :=
  locked (
    o <- trigger (CfgLookup tenantID) ;;
    match o with
    | Some provider => Ret provider
    | None =>
        tenantConfigPath <- getTenantConfigPath tenantID ;;
        st <- trigger (OsStat tenantConfigPath) ;;
        if IsNotExist st then
          logf Debug tenantID
            "Tenant config file not found, using default configuration" ;;
          trigger (BaseGetProvider ctx)
        else
          r <- createTenantProvider ctx tenantConfigPath ;;
          match r with
          | None =>
              logf Error tenantID
                "Failed to load tenant configuration, falling back to default" ;;
              trigger (BaseGetProvider ctx)
          | Some provider =>
              trigger (CfgStore tenantID provider) ;;
              setupTenantWatcher tenantID tenantConfigPath ;;
              logf Info tenantID "Successfully loaded tenant configuration" ;;
              Ret provider
          end
    end).

Definition GetTenantConfig (ctx : Context) (tenantID : string)
  : prog Provider :=
  if decide (tenantID = "default") then trigger (BaseGetProvider ctx)
  else
    trigger MuRLock ;;
    o <- trigger (CfgLookup tenantID) ;;
    match o with
    | Some provider => trigger MuRUnlock ;; Ret provider
    | None => trigger MuRUnlock ;; loadTenantConfig ctx tenantID
    end.

Definition InvalidateTenantConfig (tenantID : string) : prog unit :=
  locked (
    trigger (CfgDelete tenantID) ;;
    o <- trigger (WatchLookup tenantID) ;;
    match o with
    | Some cleanup => call_cleanup cleanup ;; trigger (WatchDelete tenantID)
    | None => Ret tt
    end ;;
    logf Debug tenantID "Invalidated tenant configuration cache").

Definition invalidateTenantConfigUnsafe (tenantID : string) : prog unit :=
  trigger (CfgDelete tenantID) ;;
  logf Debug tenantID "Invalidated tenant configuration cache (unsafe)".

Definition preloadTenantConfig (ctx : Context) (tenantID configPath : string)
  : prog (option Provider) :=
  r <- createTenantProvider ctx configPath ;;
  match r with
  | None => Ret None
  | Some provider =>
      trigger MuLock ;;
      trigger (CfgStore tenantID provider) ;;
      trigger MuUnlock ;;
      logf Info tenantID
        "Successfully preloaded tenant configuration after file change" ;;
      Ret (Some provider)
  end.

(** The goroutine started by the watcher callback. *)
Definition preload_goroutine (tenantID configPath : string) : prog unit :=
  r <- preloadTenantConfig Background tenantID configPath ;;
  match r with
  | None =>
      logf Warn tenantID
        "Failed to preload tenant configuration after file change"
  | Some _ => Ret tt
  end.

(** The callback given to [configx.AttachWatcher] in
    [setupTenantWatcher]; [err] is [None] for a nil error. It takes no lock
    around [invalidateTenantConfigUnsafe]. *)
Definition watcher_callback (tenantID configPath : string)
    (event : string) (err : option string) : prog unit :=
  match err with
  | Some _ => logf Error tenantID "File watcher error for tenant config"
  | None =>
      logf Info tenantID
        "Tenant configuration file changed, invalidating cache" ;;
      invalidateTenantConfigUnsafe tenantID ;;
      trigger (Go tenantID configPath)
  end.

Definition getLoadedTenantsUnsafe : prog (list string) :=
  trigger CfgRange.

Definition GetTenantConfigStats : prog Stats :=
  rlocked (
    n <- trigger CfgLen ;;
    w <- trigger WatchLen ;;
    ids <- getLoadedTenantsUnsafe ;;
    dir <- trigger ConfigDirectory ;;
    Ret (mkStats n w ids dir)).

Definition GetConfigDirectory : prog string := trigger ConfigDirectory.

Definition Shutdown : prog unit :=
  locked (
    ws <- trigger WatchRange ;;
    for_each ws (fun '(tenantID, cleanup) =>
      call_cleanup cleanup ;;
      logf Debug tenantID "Stopped file watcher for tenant") ;;
    trigger WatchReset).

(** *** [TenantAwareConfig] *)

(** [type TenantContextKey string] of package [config]. *)
Definition TenantContextKey (s : string) : Any :=
  Dyn (T_named "config" "TenantContextKey") (D_string s).

(** The first half of [TenantAwareConfig.GetProvider]: the tenant
    identifier read from the context. *)
Definition GetProvider_tenantID (ctx : Context) : string :=
  let tenantID := "default" in
  match Value ctx (TenantContextKey "tenant_id") with
  | Nil => tenantID
  | value =>
      match assert_string value with
      | Some tid => tid
      | None => tenantID
      end
  end.

Definition TenantAwareConfig_GetProvider (ctx : Context) : prog Provider :=
  GetTenantConfig ctx (GetProvider_tenantID ctx).

End Methods.

End Config.

(** ** Goroutines sharing one manager *)

Module Sched.
Import GoContext Config.

(** A goroutine is what is left of its program. *)
Definition goroutine : Type := { A : Type & prog A }.

Definition go {A : Type} (p : prog A) : goroutine := existT A p.

Definition returned (g : goroutine) : Prop :=
  match projT2 g with
  | Ret _ => True
  | Vis _ _ => False
  end.

Record System : Type := mkSystem {
  shared : State;
  pool : list goroutine
}.

(** One goroutine performs its next operation; it can only when the shared
    state answers (a goroutine that waits on the mutex is not scheduled). *)
Inductive run_step : System -> System -> Prop :=
| run_step_intro (A X : Type) (e : tmE X) (k : X -> prog A) (x : X)
    (s s' : State) (l1 l2 : list goroutine) :
    handle e s = Step x s' ->
    run_step (mkSystem s (l1 ++ go (Vis e k) :: l2))
             (mkSystem s' (l1 ++ go (k x) :: l2)).

(** The calls that the users of a manager can make. *)
Inductive api_call (filepath_Join : list string -> string) : goroutine -> Prop :=
| call_GetTenantConfig ctx tenantID :
    api_call filepath_Join (go (GetTenantConfig filepath_Join ctx tenantID))
| call_GetProvider ctx :
    api_call filepath_Join (go (TenantAwareConfig_GetProvider filepath_Join ctx))
| call_InvalidateTenantConfig tenantID :
    api_call filepath_Join (go (InvalidateTenantConfig tenantID))
| call_GetTenantConfigStats :
    api_call filepath_Join (go GetTenantConfigStats)
| call_GetConfigDirectory :
    api_call filepath_Join (go GetConfigDirectory)
| call_Shutdown :
    api_call filepath_Join (go Shutdown).

(** The files change behind the manager's back: everything but the file
    system and the loader's verdicts stays. *)
Definition files_changed (w w' : World) : Prop :=
  next_provider w' = next_provider w /\ loads w' = loads w
  /\ subscriptions w' = subscriptions w /\ log w' = log w
  /\ spawned w' = spawned w.

Definition set_spawned (l : list (string * string)) (w : World) : World :=
  {| fs_stat := fs_stat w; loadable := loadable w; watchable := watchable w;
     next_provider := next_provider w; loads := loads w;
     subscriptions := subscriptions w; log := log w; spawned := l |}.

(** The whole service: goroutines run, calls arrive, attached watchers fire
    their callback, goroutines started with [go] are scheduled, and files
    change within what [Env] allows. *)
Inductive step (filepath_Join : list string -> string) (Env : World -> Prop)
  : System -> System -> Prop :=
| step_run sys sys' :
    run_step sys sys' -> step filepath_Join Env sys sys'
| step_call s l g :
    api_call filepath_Join g ->
    step filepath_Join Env (mkSystem s l) (mkSystem s (l ++ [g]))
| step_file_event s l tenantID configPath event err :
    (tenantID, configPath) ∈ subscriptions (world s) ->
    step filepath_Join Env (mkSystem s l)
      (mkSystem s (l ++ [go (watcher_callback tenantID configPath event err)]))
| step_go s l tenantID configPath rest :
    spawned (world s) = (tenantID, configPath) :: rest ->
    step filepath_Join Env (mkSystem s l)
      (mkSystem (set_world (set_spawned rest (world s)) s)
                (l ++ [go (preload_goroutine tenantID configPath)]))
| step_env s l w' :
    files_changed (world s) w' -> Env w' ->
    step filepath_Join Env (mkSystem s l) (mkSystem (set_world w' s) l).

(** A world in which nothing has happened yet. *)
Definition fresh_world (st : string -> StatResult) (ld wt : string -> bool)
    (next : Provider) : World :=
  {| fs_stat := st; loadable := ld; watchable := wt; next_provider := next;
     loads := []; subscriptions := []; log := []; spawned := [] |}.

Definition boot (base : Config) (dir : string) (w : World) : System :=
  mkSystem {| tm := NewTenantManager base dir; world := w |} [].

(** *** Programs that leave one tenant alone *)

(** The operations that create something for [tenantID]: a cache entry, a
    watcher subscription or a preloading goroutine. *)
Definition creates (tenantID : string) {X : Type} (e : tmE X) : Prop :=
  match e with
  | CfgStore t _ => t = tenantID
  | ConfigxNewWatcher t _ => t = tenantID
  | Go t _ => t = tenantID
  | _ => False
  end.

(** [p] never performs such an operation, whatever the shared state
    answers as long as it satisfies [P]. *)
Fixpoint avoids (P : State -> Prop) (tenantID : string) {A : Type}
    (p : prog A) : Prop :=
  match p with
  | Ret _ => True
  | Vis e k =>
      ~ creates tenantID e
      /\ forall s x s', P s -> handle e s = Step x s' -> avoids P tenantID (k x)
  end.

Definition goroutine_avoids (P : State -> Prop) (tenantID : string)
    (g : goroutine) : Prop :=
  avoids P tenantID (projT2 g).

(** Nothing exists for [tenantID], and no goroutine is about to create
    anything for it. *)
Definition left_alone (P : State -> Prop) (tenantID : string) (sys : System)
  : Prop :=
  P (shared sys)
  /\ tenantConfigs (tm (shared sys)) !! tenantID = None
  /\ (forall path, (tenantID, path) ∉ subscriptions (world (shared sys)))
  /\ (forall path, (tenantID, path) ∉ spawned (world (shared sys)))
  /\ Forall (goroutine_avoids P tenantID) (pool sys).

(** The base configuration of the manager is [base]. *)
Definition base_is (base : Config) (s : State) : Prop :=
  baseConfig (tm s) = base.

(** The file at [path] is missing ([missing = true]) or there and not
    loadable ([missing = false]). *)
Definition file_fails (missing : bool) (path : string) (w : World) : Prop :=
  if missing then fs_stat w path = stat_not_exist
  else loadable w path = false.

(** The manager has its base configuration and directory, and the file at
    [path] fails. *)
Definition bad_file (base : Config) (dir : string) (missing : bool)
    (path : string) (s : State) : Prop :=
  baseConfig (tm s) = base /\ configDirectory (tm s) = dir
  /\ file_fails missing path (world s).

(** *** The locking protocol of a first [GetTenantConfig] *)

(** Where a goroutine that resolves a tenant not cached yet stands: it
    holds no lock, the read lock, the write lock before or after the load,
    or it has stored its entry and holds the write lock still. *)
Inductive phase : Type := Outside | Reading | Writing | Loaded | Stored.

Section Protocol.
Variables (tenantID dir path : string).

(** [p] is the rest of such a resolution in phase [ph], for a tenant
    whose file at [path] exists and loads: it reads the cache (and
    misses), takes the locks in order, and after its store it asks for
    the write lock again. It is never a returned program. *)
Fixpoint follows {A : Type} (ph : phase) (p : prog A) : Prop :=
  match p with
  | Ret _ => False
  | Vis e k =>
      match e in tmE X return (X -> prog A) -> Prop with
      | MuRLock => fun k => ph = Outside /\ follows Reading (k tt)
      | MuRUnlock => fun k => ph = Reading /\ follows Outside (k tt)
      | MuLock => fun k =>
          (ph = Outside /\ follows Writing (k tt)) \/ ph = Stored
      | CfgLookup t => fun k =>
          t = tenantID
          /\ ((ph = Reading /\ follows Reading (k None))
              \/ (ph = Writing /\ follows Writing (k None)))
      | ConfigDirectory => fun k => ph = Writing /\ follows Writing (k dir)
      | OsStat f => fun k =>
          ph = Writing /\ f = path
          /\ forall r, IsNotExist r = false -> follows Writing (k r)
      | ConfigxNew f => fun k =>
          ph = Writing /\ f = path
          /\ forall a, follows Loaded (k (Some a))
      | CfgStore t a => fun k =>
          ph = Loaded /\ t = tenantID /\ follows Stored (k tt)
      | _ => fun _ => False
      end k
  end.

Definition holds_read (ph : phase) : nat :=
  match ph with Reading => 1 | _ => 0 end.

Definition holds_write (ph : phase) : nat :=
  match ph with Writing | Loaded | Stored => 1 | _ => 0 end.

Definition has_loaded (ph : phase) : nat :=
  match ph with Loaded | Stored => 1 | _ => 0 end.

Definition has_stored (ph : phase) : nat :=
  match ph with Stored => 1 | _ => 0 end.

Definition total (f : phase -> nat) (phs : list phase) : nat :=
  foldr (fun ph n => f ph + n) 0 phs.

Definition goroutine_follows (ph : phase) (g : goroutine) : Prop :=
  follows ph (projT2 g).

(** The tenant's file exists and loads. *)
Definition file_good (s : State) : Prop :=
  configDirectory (tm s) = dir
  /\ IsNotExist (fs_stat (world s) path) = false
  /\ loadable (world s) path = true.

(** The goroutines stand in the phases [phs]; the mutex counts the readers
    and the writer among them; the cache has an entry for the tenant only
    once one of them has stored it; and the loader has been called once for
    each goroutine that is past its load. *)
Definition racing (loads0 : list string) (phs : list phase) (sys : System)
  : Prop :=
  Forall2 goroutine_follows phs (pool sys)
  /\ file_good (shared sys)
  /\ readers (mu (tm (shared sys))) = total holds_read phs
  /\ Nat.b2n (writer (mu (tm (shared sys)))) = total holds_write phs
  /\ (writer (mu (tm (shared sys))) = true ->
      readers (mu (tm (shared sys))) = 0)
  /\ (total has_stored phs = 0 ->
      tenantConfigs (tm (shared sys)) !! tenantID = None)
  /\ loads (world (shared sys))
     = (replicate (total has_loaded phs) path ++ loads0)%list.

End Protocol.

(** Several programs one after the other, each from the state the previous
    left. *)
Fixpoint exec_all {A : Type} (ps : list (prog A)) (s : State)
  : outcome (list A) :=
  match ps with
  | [] => Done [] s
  | p :: ps' =>
      match exec p s with
      | Done a s' =>
          match exec_all ps' s' with
          | Done l s'' => Done (a :: l) s''
          | Blocked s'' => Blocked s''
          | Crashed s'' => Crashed s''
          end
      | Blocked s' => Blocked s'
      | Crashed s' => Crashed s'
      end
  end.

End Sched.

(** ** A service to run the model on *)

Module Scenario.
Import GoContext Config Sched.

(** [filepath.Join] where the separator is [/], for elements that are
    already clean. *)
Definition join (l : list string) : string := String.concat "/" l.

Definition base : Config := {| GetProvider := fun _ => 0 |}.

(** The directory [/cfg] holds a loadable [tenant1/kratos.yaml] and a
    [broken/kratos.yaml] that does not load; nothing else is there. *)
Definition files : World :=
  fresh_world
    (fun f =>
       if decide (f = "/cfg/tenant1/kratos.yaml") then stat_ok
       else if decide (f = "/cfg/broken/kratos.yaml") then stat_ok
       else stat_not_exist)
    (fun f => bool_decide (f = "/cfg/tenant1/kratos.yaml"))
    (fun _ => true)
    1.

(** A new manager. *)
Definition start : State :=
  {| tm := NewTenantManager base "/cfg"; world := files |}.

(** A manager in which [tenant1] is cached and watched. *)
Definition warm : State :=
  {| tm := {| mu := {| writer := false; readers := 0 |};
              baseConfig := base;
              tenantConfigs := {[ "tenant1" := 1 ]};
              configDirectory := "/cfg";
              watchers := {[ "tenant1" := mkCleanup "tenant1" 2 ]} |};
     world := {| fs_stat := fs_stat files; loadable := loadable files;
                 watchable := watchable files; next_provider := 3;
                 loads := ["/cfg/tenant1/kratos.yaml"];
                 subscriptions := [("tenant1", "/cfg/tenant1/kratos.yaml")];
                 log := []; spawned := [] |} |}.

(** A context whose value under [x.TenantIDKey] is an [int]. *)
Definition odd_context : Context :=
  WithValue Background X.TenantIDKey (Dyn T_int (D_int 7)).

End Scenario.

(** ** Further notions for stating what the code does *)

Module Notions.
Import GoStrings GoContext Config Sched.

(** Every byte of [s] is ASCII white space; the empty string is. *)
Fixpoint all_space (s : string) : bool :=
  match s with
  | EmptyString => true
  | String c t => asciiSpace c && all_space t
  end.

(** The state in which a run ended, however it ended. *)
Definition final_state {A : Type} (o : outcome A) : State :=
  match o with
  | Done _ s => s
  | Blocked s => s
  | Crashed s => s
  end.

(** What a goroutine holds of the mutex's write side: nothing, the write
    lock, or the write lock with a cache entry stored under it. *)
Inductive hold : Type := Free | Holding | Stored.

Definition holds_lock (h : hold) : nat :=
  match h with Free => 0 | _ => 1 end.

Definition holds_entry (h : hold) : nat :=
  match h with Stored => 1 | _ => 0 end.

(** [p] is the rest of a program that, holding [h], never stores a watcher,
    never subscribes a callback and never starts a goroutine; that stores a
    cache entry only under the write lock and does not give that lock back
    afterwards; and that asks for the write lock either holding nothing or
    holding it already, in which case it never gets it. *)
Fixpoint tame {A : Type} (h : hold) (p : prog A) : Prop :=
  match p with
  | Ret _ => True
  | Vis e k =>
      match e in tmE X return (X -> prog A) -> Prop with
      | MuLock => fun k =>
          match h with
          | Free => tame Holding (k tt)
          | _ => True
          end
      | MuUnlock => fun k => h = Holding /\ tame Free (k tt)
      | CfgStore _ _ => fun k => h = Holding /\ tame Stored (k tt)
      | WatchStore _ _ => fun _ => False
      | ConfigxNewWatcher _ _ => fun _ => False
      | Go _ _ => fun _ => False
      | _ => fun k => forall x, tame h (k x)
      end k
  end.

Definition goroutine_tame (h : hold) (g : goroutine) : Prop :=
  tame h (projT2 g).

(** How many of [hs] count for [f]. *)
Definition tally (f : hold -> nat) (hs : list hold) : nat :=
  foldr (fun h n => f h + n) 0 hs.

(** No watcher, no subscription and no pending goroutine exist; the mutex
    is write-locked exactly when one goroutine holds it; and the cache is
    empty unless such a goroutine has stored an entry under the lock. *)
Definition unarmed (hs : list hold) (sys : System) : Prop :=
  Forall2 goroutine_tame hs (pool sys)
  /\ Nat.b2n (writer (mu (tm (shared sys)))) = tally holds_lock hs
  /\ (tally holds_entry hs = 0 -> tenantConfigs (tm (shared sys)) = ∅)
  /\ watchers (tm (shared sys)) = ∅
  /\ subscriptions (world (shared sys)) = []
  /\ spawned (world (shared sys)) = [].

End Notions.

(** * Properties *)

Import GoStrings GoContext.

(** ** The tenant identifier extractor *)

Section Extractor.
Import X.

Lemma Contains_one_cons c a t :
  Contains (String a t) (one c) = false <->
  a <> c /\ Contains t (one c) = false.
Proof.
  unfold one. simpl. destruct (ascii_dec c a) as [->|Hne].
  - destruct t; simpl; split; intros H; try discriminate; destruct H; congruence.
  - simpl. split; [intros H; split; [congruence | exact H] | intros [_ H]; exact H].
Qed.

(** Cutting out the occurrences of a one-byte pattern leaves none. *)
Lemma cut_one_gone c s : Contains (cut (one c) 0 s) (one c) = false.
Proof.
  induction s as [|a t IH]; [reflexivity|].
  change (cut (one c) 0 (String a t))
    with (if String.prefix (one c) (String a t)
          then cut (one c) 0 t else String a (cut (one c) 0 t)).
  unfold one at 1. simpl String.prefix.
  destruct (ascii_dec c a) as [->|Hne].
  - destruct t; exact IH.
  - apply Contains_one_cons. split; [congruence | exact IH].
Qed.

(** Cutting never brings a byte in: the result is a subsequence. *)
Lemma cut_keeps_absent c old s :
  Contains s (one c) = false ->
  forall skip, Contains (cut old skip s) (one c) = false.
Proof.
  induction s as [|a t IH]; intros H skip; [reflexivity|].
  apply Contains_one_cons in H as [Hne Ht].
  destruct skip as [|k]; cbn [cut].
  - destruct (String.prefix old (String a t)).
    + apply IH, Ht.
    + apply Contains_one_cons. split; [exact Hne | apply IH, Ht].
  - apply IH, Ht.
Qed.

Lemma ReplaceAll_empty_keeps_absent c old s :
  Contains s (one c) = false ->
  Contains (ReplaceAll_empty s old) (one c) = false.
Proof.
  intros H. destruct old; [exact H|]. apply cut_keeps_absent, H.
Qed.

(** The half of the sanitisation that holds: no path separator of either
    direction is left in the identifier. *)
Lemma extractTenantID_no_separator (r : Request) :
  Contains (extractTenantID r) "/" = false
  /\ Contains (extractTenantID r) "\" = false.
Proof.
  unfold extractTenantID.
  destruct (decide _); [split; reflexivity|].
  destruct (decide _); [split; reflexivity|].
  split.
  - apply (ReplaceAll_empty_keeps_absent "/"%char).
    apply (cut_one_gone "/"%char).
  - apply (cut_one_gone "\"%char).
Qed.

(** C1.  The header value [./.] holds a path separator, and the identifier
    extracted from it is [..]: the two dots only meet once the separator
    between them has been removed, after the pass that removes [..]. The
    sanitised identifier is the parent directory. *)
Theorem extractTenantID_dot_slash_dot :
  Contains (Header_Get (Header (request_with_tenant "./." Background))
                       TenantIDHeader) "/" = true
  /\ extractTenantID (request_with_tenant "./." Background) = ".."
  /\ Contains (extractTenantID (request_with_tenant "./." Background)) ".."
     = true.
Proof. vm_compute. repeat split. Qed.

End Extractor.

(** ** The tenant identifier in the request context *)

Section ContextPropagation.
Import X Config.

Lemma not_a_string_assert v : not_a_string v -> assert_string v = None.
Proof.
  intros [->|(t & d & -> & Ht)]; [reflexivity|].
  destruct t; try reflexivity. congruence.
Qed.

Lemma GetTenantID_SetTenantID ctx tenantID :
  GetTenantID (SetTenantID ctx tenantID) = tenantID.
Proof.
  unfold GetTenantID, SetTenantID. cbn [Value].
  rewrite decide_True by reflexivity. reflexivity.
Qed.

(** The two packages declare their key types apart, so the keys differ. *)
Lemma keys_differ : X.TenantIDKey <> Config.TenantContextKey "tenant_id".
Proof. discriminate. Qed.

(** What [TenantAwareConfig.GetProvider] reads is whatever the context held
    before the middleware ran. *)
Lemma GetProvider_tenantID_ignores_middleware ctx tenantID :
  GetProvider_tenantID (WithValue ctx X.TenantIDKey (of_string tenantID))
  = GetProvider_tenantID ctx.
Proof.
  unfold GetProvider_tenantID. cbn [Value].
  rewrite decide_False by apply keys_differ. reflexivity.
Qed.

(** C2.  For the request [X-Tenant-Id: tenant1] the middleware stores
    [tenant1] under [x.TenantIDKey]; in the context it hands on,
    [x.GetTenantID] reads [tenant1] back, and
    [TenantAwareConfig.GetProvider] reads [default]: its key has the type
    [config.TenantContextKey], for which the context holds nothing. *)
Theorem middleware_tenant_lost_at_GetProvider :
  TenantMiddleware tt (request_with_tenant "tenant1" Background)
    (fun _ r => (GetTenantID (Context_ r), GetProvider_tenantID (Context_ r)))
  = ("tenant1", "default").
Proof.
  unfold TenantMiddleware. cbn [Context_ WithContext request_with_tenant].
  rewrite GetProvider_tenantID_ignores_middleware.
  fold (SetTenantID Background
          (extractTenantID (request_with_tenant "tenant1" Background))).
  rewrite GetTenantID_SetTenantID.
  vm_compute. reflexivity.
Qed.

(** C10.  When the value under its tenant key is absent or is no string,
    [GetTenantID] returns [default], and so does the tenant resolution of
    [TenantAwareConfig.GetProvider] for the value under its own key. *)
Theorem tenant_of_context_defaults (ctx : Context) :
  (not_a_string (Value ctx X.TenantIDKey) ->
   GetTenantID ctx = DefaultTenantID)
  /\ (not_a_string (Value ctx (Config.TenantContextKey "tenant_id")) ->
      GetProvider_tenantID ctx = "default").
Proof.
  split; intros H; apply not_a_string_assert in H.
  - unfold GetTenantID. rewrite H. reflexivity.
  - revert H. unfold GetProvider_tenantID.
    destruct (Value ctx _) as [|t d]; [reflexivity|].
    destruct t, d; simpl; congruence.
Qed.

End ContextPropagation.

(** ** The tenant manager, one goroutine at a time *)

Section Sequential.
Import Config Sched.

Variable filepath_Join : list string -> string.

Abbreviation tenant_path s tenantID :=
  (filepath_Join [configDirectory (tm s); tenantID; "kratos.yaml"]).

Lemma exec_bind {A B : Type} (m : prog A) (f : A -> prog B) s :
  exec (bind m f) s =
  match exec m s with
  | Done a s' => exec (f a) s'
  | Blocked s' => Blocked s'
  | Crashed s' => Crashed s'
  end.
Proof.
  revert s. induction m as [a|X e k IH]; intros s; [reflexivity|].
  cbn [bind exec]. destruct (handle e s); auto.
Qed.

(** Running alone is one of the interleavings: what [exec] computes for a
    goroutine is reached by its own steps while the others stand still. *)
Lemma exec_run {A : Type} (p : prog A) s (l1 l2 : list goroutine) :
  match exec p s with
  | Done a s' =>
      rtc run_step (mkSystem s (l1 ++ go p :: l2))
                   (mkSystem s' (l1 ++ go (Ret a) :: l2))
  | Blocked s' =>
      exists X (e : tmE X) (k : X -> prog A),
        rtc run_step (mkSystem s (l1 ++ go p :: l2))
                     (mkSystem s' (l1 ++ go (Vis e k) :: l2))
        /\ handle e s' = Wait
  | Crashed s' =>
      exists X (e : tmE X) (k : X -> prog A),
        rtc run_step (mkSystem s (l1 ++ go p :: l2))
                     (mkSystem s' (l1 ++ go (Vis e k) :: l2))
        /\ handle e s' = Fatal
  end.
Proof.
  revert s. induction p as [a|X e k IH]; intros s; cbn [exec].
  - apply rtc_refl.
  - destruct (handle e s) as [x s1| |] eqn:Hh.
    + specialize (IH x s1).
      assert (Hstep : run_step (mkSystem s (l1 ++ go (Vis e k) :: l2))
                               (mkSystem s1 (l1 ++ go (k x) :: l2)))
        by (constructor; exact Hh).
      destruct (exec (k x) s1) as [a s'|s'|s'].
      * exact (rtc_l _ _ _ _ Hstep IH).
      * destruct IH as (X' & e' & k' & Hr & Hw).
        exists X', e', k'. split; [exact (rtc_l _ _ _ _ Hstep Hr) | exact Hw].
      * destruct IH as (X' & e' & k' & Hr & Hw).
        exists X', e', k'. split; [exact (rtc_l _ _ _ _ Hstep Hr) | exact Hw].
    + exists X, e, k. split; [apply rtc_refl | exact Hh].
    + exists X, e, k. split; [apply rtc_refl | exact Hh].
Qed.

Ltac run1 :=
  cbn [exec bind trigger handle logf call_cleanup locked rlocked
       set_mu set_world set_tenantConfigs set_watchers write_log spawn
       tm world mu writer readers tenantConfigs watchers baseConfig
       configDirectory fs_stat loadable watchable next_provider loads
       subscriptions log spawned getTenantConfigPath createTenantProvider
       IsNotExist].

Ltac run := run1; unfold new_provider, new_watcher; run1.


(** The successful load: the entry is stored, and then the goroutine asks
    in [setupTenantWatcher] for the write lock that [loadTenantConfig] holds. *)
Lemma loadTenantConfig_blocks ctx tenantID s :
  unlocked s ->
  tenantConfigs (tm s) !! tenantID = None ->
  IsNotExist (fs_stat (world s) (tenant_path s tenantID)) = false ->
  loadable (world s) (tenant_path s tenantID) = true ->
  exists s',
    exec (loadTenantConfig filepath_Join ctx tenantID) s = Blocked s'
    /\ tenantConfigs (tm s')
       = <[tenantID := next_provider (world s)]> (tenantConfigs (tm s))
    /\ writer (mu (tm s')) = true
    /\ watchers (tm s') = watchers (tm s)
    /\ subscriptions (world s') = subscriptions (world s).
Proof.
  intros Hmu Hc Hst Hld.
  destruct s as [[m base cfgs dir ws] w]. unfold unlocked in Hmu.
  cbn [tm world mu tenantConfigs configDirectory watchers] in *. subst m.
  unfold loadTenantConfig, setupTenantWatcher.
  run. rewrite Hc. run. rewrite Hst. run. rewrite Hld. run.
  eexists. split; [reflexivity|]. cbn. auto.
Qed.

(** A first call for such a tenant ends in that wait, with the entry stored
    and the mutex locked for writing. *)
Lemma GetTenantConfig_blocks ctx tenantID s :
  tenantID <> "default" ->
  unlocked s ->
  tenantConfigs (tm s) !! tenantID = None ->
  IsNotExist (fs_stat (world s) (tenant_path s tenantID)) = false ->
  loadable (world s) (tenant_path s tenantID) = true ->
  exists s',
    exec (GetTenantConfig filepath_Join ctx tenantID) s = Blocked s'
    /\ is_Some (tenantConfigs (tm s') !! tenantID)
    /\ writer (mu (tm s')) = true.
Proof.
  intros Hne Hmu Hc Hst Hld.
  destruct (loadTenantConfig_blocks ctx tenantID s Hmu Hc Hst Hld)
    as (s' & Hrun & Hcfg & Hw & _).
  exists s'. split; [|split; [rewrite Hcfg, lookup_insert_eq; eauto | exact Hw]].
  destruct s as [[m base cfgs dir ws] w]. unfold unlocked in Hmu.
  cbn [tm mu tenantConfigs] in *. subst m.
  unfold GetTenantConfig. rewrite decide_False by exact Hne.
  run. rewrite Hc. run. exact Hrun.
Qed.

(** C3.  A tenant other than [default], not cached, whose file exists and
    loads: [GetTenantConfig] stores the new provider in the cache and then
    waits for ever in [setupTenantWatcher], which asks for the write lock
    that [loadTenantConfig] still holds. The call never returns, no watcher
    is stored or subscribed, and the mutex stays locked for writing. *)
Theorem GetTenantConfig_valid_file_never_returns ctx tenantID s :
  tenantID <> "default" ->
  unlocked s ->
  tenantConfigs (tm s) !! tenantID = None ->
  IsNotExist (fs_stat (world s) (tenant_path s tenantID)) = false ->
  loadable (world s) (tenant_path s tenantID) = true ->
  exists s',
    exec (GetTenantConfig filepath_Join ctx tenantID) s = Blocked s'
    /\ tenantConfigs (tm s')
       = <[tenantID := next_provider (world s)]> (tenantConfigs (tm s))
    /\ writer (mu (tm s')) = true
    /\ watchers (tm s') = watchers (tm s)
    /\ subscriptions (world s') = subscriptions (world s).
Proof.
  intros Hne Hmu Hc Hst Hld.
  destruct (loadTenantConfig_blocks ctx tenantID s Hmu Hc Hst Hld)
    as (s' & Hrun & Hfacts).
  exists s'. split; [|exact Hfacts].
  destruct s as [[m base cfgs dir ws] w]. unfold unlocked in Hmu.
  cbn [tm mu tenantConfigs] in *. subst m.
  unfold GetTenantConfig. rewrite decide_False by exact Hne.
  run. rewrite Hc. run. exact Hrun.
Qed.

(** The fallback of [loadTenantConfig]: for a tenant other than [default]
    that is not cached and whose file is missing or does not load, the call
    returns the base provider and leaves the manager as it was. *)
Lemma GetTenantConfig_fallback ctx tenantID s :
  tenantID <> "default" ->
  unlocked s ->
  tenantConfigs (tm s) !! tenantID = None ->
  fs_stat (world s) (tenant_path s tenantID) = stat_not_exist
  \/ loadable (world s) (tenant_path s tenantID) = false ->
  exists s',
    exec (GetTenantConfig filepath_Join ctx tenantID) s
    = Done (GetProvider (baseConfig (tm s)) ctx) s'
    /\ tm s' = tm s
    /\ fs_stat (world s') = fs_stat (world s)
    /\ loadable (world s') = loadable (world s)
    /\ subscriptions (world s') = subscriptions (world s)
    /\ (fs_stat (world s) (tenant_path s tenantID) <> stat_not_exist ->
        loads (world s') = tenant_path s tenantID :: loads (world s)).
Proof.
  intros Hne Hmu Hc Hfile.
  destruct s as [[m base cfgs dir ws] w]. unfold unlocked in Hmu.
  cbn [tm world mu tenantConfigs configDirectory watchers baseConfig] in *.
  subst m.
  unfold GetTenantConfig, loadTenantConfig.
  rewrite decide_False by exact Hne.
  run. rewrite Hc. run. rewrite Hc. run.
  destruct (fs_stat w _) eqn:Hst; run.
  2: { eexists. split; [reflexivity|]. cbn. repeat split; congruence. }
  all: destruct Hfile as [Hfile|Hfile]; [discriminate Hfile|];
    rewrite Hfile; run;
    eexists; (split; [reflexivity|]); cbn; repeat split; congruence.
Qed.

Lemma exec_GetTenantConfigStats s :
  unlocked s ->
  exec GetTenantConfigStats s
  = Done {| loaded_tenants_count := size (tenantConfigs (tm s));
            active_watchers_count := size (watchers (tm s));
            loaded_tenant_ids := (map_to_list (tenantConfigs (tm s))).*1;
            config_directory := configDirectory (tm s) |} s.
Proof.
  intros Hmu. destruct s as [[m base cfgs dir ws] w]. unfold unlocked in Hmu.
  cbn [tm mu] in Hmu. subst m. reflexivity.
Qed.

Lemma not_listed (cfgs : gmap string Provider) tenantID :
  cfgs !! tenantID = None -> tenantID ∉ (map_to_list cfgs).*1.
Proof.
  intros Hc Hin. apply list_elem_of_fmap in Hin as ([k v] & -> & Hin).
  apply elem_of_map_to_list in Hin. cbn in Hc. congruence.
Qed.

(** Any number of such calls in a row all fall back and leave the manager
    as it was; when the file is there, each call hands it to the loader
    again; and [GetTenantConfigStats] afterwards does not list the tenant. *)
Lemma fallback_repeats ctx tenantID s n :
  tenantID <> "default" ->
  unlocked s ->
  tenantConfigs (tm s) !! tenantID = None ->
  fs_stat (world s) (tenant_path s tenantID) = stat_not_exist
  \/ loadable (world s) (tenant_path s tenantID) = false ->
  exists s',
    exec_all (replicate n (GetTenantConfig filepath_Join ctx tenantID)) s
    = Done (replicate n (GetProvider (baseConfig (tm s)) ctx)) s'
    /\ tm s' = tm s
    /\ (fs_stat (world s) (tenant_path s tenantID) <> stat_not_exist ->
        loads (world s')
        = (replicate n (tenant_path s tenantID) ++ loads (world s))%list)
    /\ exists st,
        exec GetTenantConfigStats s' = Done st s'
        /\ (tenantID ∉ loaded_tenant_ids st)
        /\ loaded_tenants_count st = size (tenantConfigs (tm s)).
Proof.
  intros Hne. revert s. induction n as [|n IH]; intros s Hmu Hc Hfile.
  - exists s. cbn [replicate exec_all]. repeat split.
    eexists. split; [apply exec_GetTenantConfigStats, Hmu|].
    cbn. split; [apply not_listed, Hc | reflexivity].
  - destruct (GetTenantConfig_fallback ctx tenantID s Hne Hmu Hc Hfile)
      as (s1 & Hrun & Htm & Hst & Hld & _ & Hloads).
    destruct (IH s1) as (s' & Hall & Htm' & Hloads' & Hstats).
    + unfold unlocked. rewrite Htm. exact Hmu.
    + rewrite Htm. exact Hc.
    + rewrite Htm, Hst, Hld. exact Hfile.
    + exists s'. cbn [replicate exec_all]. rewrite Hrun, Hall.
      rewrite Htm in *. rewrite Htm'. repeat split.
      * intros Hex. rewrite Hloads' by (rewrite Hst; exact Hex).
        rewrite (Hloads Hex).
        generalize (tenant_path s tenantID) (loads (world s)).
        clear. intros x l. induction n as [|n IHn]; [reflexivity|].
        cbn [replicate app] in *. f_equal. exact IHn.
      * exact Hstats.
Qed.

(** C7.  [InvalidateTenantConfig] deletes the tenant from the cache and
    from the watcher map. When the tenant is in neither, the manager is left
    as it was; and a second call leaves the manager as the first left it. *)
Theorem InvalidateTenantConfig_idempotent tenantID s :
  unlocked s ->
  exists s1,
    exec (InvalidateTenantConfig tenantID) s = Done tt s1
    /\ tenantConfigs (tm s1) = delete tenantID (tenantConfigs (tm s))
    /\ watchers (tm s1) = delete tenantID (watchers (tm s))
    /\ tenantConfigs (tm s1) !! tenantID = None
    /\ watchers (tm s1) !! tenantID = None
    /\ (tenantConfigs (tm s) !! tenantID = None ->
        watchers (tm s) !! tenantID = None -> tm s1 = tm s)
    /\ exists s2,
        exec (InvalidateTenantConfig tenantID) s1 = Done tt s2
        /\ tm s2 = tm s1.
Proof.
  intros Hmu. destruct s as [[m base cfgs dir ws] w]. unfold unlocked in Hmu.
  cbn [tm mu] in Hmu. subst m.
  unfold InvalidateTenantConfig. run.
  destruct (ws !! tenantID) as [c|] eqn:Hw; run.
  - eexists. split; [reflexivity|]. cbn.
    rewrite !lookup_delete_eq. repeat split.
    + intros _ [=].
    + run. eexists. split; [reflexivity|]. cbn.
      rewrite !delete_delete_eq. reflexivity.
  - eexists. split; [reflexivity|]. cbn.
    rewrite lookup_delete_eq, (delete_id ws) by exact Hw.
    repeat split; [exact Hw | |].
    + intros Hc _. rewrite (delete_id cfgs) by exact Hc. reflexivity.
    + rewrite Hw. run. eexists. split; [reflexivity|]. cbn.
      rewrite delete_delete_eq. reflexivity.
Qed.


(** The loop of [Shutdown]: every closure met is called, which writes its
    line to the log, and nothing but the log changes. *)
Lemma exec_stop_all (ws : list (string * Cleanup)) s :
  exists s',
    exec (for_each ws (fun '(tenantID, cleanup) =>
            bind (call_cleanup cleanup) (fun _ =>
              logf Debug tenantID "Stopped file watcher for tenant"))) s
    = Done tt s'
    /\ tm s' = tm s
    /\ subscriptions (world s') = subscriptions (world s)
    /\ exists entries,
        log (world s') = (entries ++ log (world s))%list
        /\ forall t c, (t, c) ∈ ws ->
             mkLog Debug (cl_tenantID c)
               "Tenant config watcher cleanup completed" ∈ entries
             /\ mkLog Debug t "Stopped file watcher for tenant" ∈ entries.
Proof.
  revert s. induction ws as [|[t c] ws IH]; intros s.
  - exists s. cbn [for_each exec]. repeat split. exists []. split; [reflexivity|].
    intros t c Hin. inversion Hin.
  - cbn [for_each]. rewrite exec_bind.
    remember (for_each ws _) as rest eqn:Hrest. run. subst rest.
    match goal with |- context [exec _ ?st] => destruct (IH st)
      as (s' & Hrun & Htm & Hsub & entries & Hlog & Hin) end.
    exists s'. rewrite Hrun. split; [reflexivity|].
    split; [exact Htm|]. split; [exact Hsub|].
    eexists (entries ++ [_; _])%list. split.
    + rewrite Hlog. cbn. rewrite <- app_assoc. reflexivity.
    + intros t' c' Hel. apply elem_of_cons in Hel as [[= -> ->]|Hel].
      * split; apply elem_of_app; right; [right; left | left].
      * destruct (Hin t' c' Hel). split; apply elem_of_app; left; assumption.
Qed.




(** [GetTenantConfig] for [default] is the base provider, in any state and
    without touching it. *)
Lemma GetTenantConfig_default ctx s :
  exec (GetTenantConfig filepath_Join ctx "default") s
  = Done (GetProvider (baseConfig (tm s)) ctx) s.
Proof.
  unfold GetTenantConfig. rewrite decide_True by reflexivity. reflexivity.
Qed.

End Sequential.

(** ** The tenant manager under concurrent use *)

Section LeftAlone.
Import Config Sched.

Variable filepath_Join : list string -> string.
Variable Env : World -> Prop.
Variable P : State -> Prop.
Variable tenantID : string.

(** [P] only speaks of what the manager's operations leave alone and of
    what [Env] guarantees. *)
Hypothesis P_handle :
  forall X (e : tmE X) s x s', P s -> handle e s = Step x s' -> P s'.
Hypothesis P_env :
  forall s w', P s -> files_changed (world s) w' -> Env w' ->
               P (set_world w' s).
Hypothesis P_go :
  forall s rest, P s -> P (set_world (set_spawned rest (world s)) s).
Hypothesis own_call_avoids :
  forall ctx, avoids P tenantID (GetTenantConfig filepath_Join ctx tenantID).

Lemma handle_keeps_absent {X} (e : tmE X) s x s' :
  handle e s = Step x s' ->
  ~ creates tenantID e ->
  (tenantConfigs (tm s) !! tenantID = None ->
   tenantConfigs (tm s') !! tenantID = None)
  /\ (forall path, (tenantID, path) ∉ subscriptions (world s) ->
                   (tenantID, path) ∉ subscriptions (world s'))
  /\ (forall path, (tenantID, path) ∉ spawned (world s) ->
                   (tenantID, path) ∉ spawned (world s')).
Proof.
  intros Hh Hc.
  destruct e; cbn [handle creates] in Hh, Hc;
    repeat match type of Hh with
           | (if ?b then _ else _) = _ => destruct b eqn:?
           | match ?n with O => _ | S _ => _ end = _ => destruct n eqn:?
           end;
    try discriminate Hh;
    try (injection Hh as <- <-; cbn; auto; fail).
  - (* CfgStore *)
    injection Hh as <- <-. cbn. repeat split; auto.
    intros H. rewrite lookup_insert_ne by exact Hc. exact H.
  - (* CfgDelete *)
    injection Hh as <- <-. cbn. repeat split; auto.
    intros H. rewrite lookup_delete. case_decide; [reflexivity | exact H].
  - (* ConfigxNew *)
    unfold new_provider in Hh. destruct (loadable (world s) path);
      cbn in Hh; injection Hh as <- <-; cbn; auto.
  - (* ConfigxNewWatcher *)
    unfold new_watcher in Hh.
    destruct (loadable (world s) path && watchable (world s) path);
      cbn in Hh; injection Hh as <- <-; cbn; repeat split; auto.
    intros p H Hin. apply elem_of_cons in Hin as [[= E _]|Hin]; auto.
  - (* Go *)
    injection Hh as <- <-. cbn. repeat split; auto.
    intros p H Hin. apply elem_of_app in Hin as [Hin|Hin]; [auto|].
    apply list_elem_of_singleton in Hin. injection Hin as E _. auto.
Qed.

Lemma avoids_bind {A B} (m : prog A) (f : A -> prog B) :
  avoids P tenantID m -> (forall a, avoids P tenantID (f a)) ->
  avoids P tenantID (bind m f).
Proof.
  intros Hm Hf. induction m as [a|X e k IH]; cbn [bind avoids] in *;
    [apply Hf|].
  destruct Hm as [Hc Hk]. split; [exact Hc|].
  intros s x s' HP Hh. apply IH, (Hk s x s' HP Hh).
Qed.

Lemma avoids_trigger {X} (e : tmE X) :
  ~ creates tenantID e -> avoids P tenantID (trigger e).
Proof. intros Hc. cbn. split; [exact Hc | intros; exact I]. Qed.

Ltac harmless :=
  repeat first
    [ apply avoids_bind; [|intros ?]
    | apply avoids_trigger; cbn [creates]; first [tauto | congruence]
    | exact I
    | match goal with
      | |- avoids _ _ (match ?o with _ => _ end) => destruct o
      end ].

Lemma watcher_callback_avoids t path event err :
  t <> tenantID -> avoids P tenantID (watcher_callback t path event err).
Proof.
  intros Hne. unfold watcher_callback, invalidateTenantConfigUnsafe, logf.
  harmless.
Qed.

Lemma preload_goroutine_avoids t path :
  t <> tenantID -> avoids P tenantID (preload_goroutine t path).
Proof.
  intros Hne.
  unfold preload_goroutine, preloadTenantConfig, createTenantProvider, logf.
  harmless.
Qed.

Lemma for_each_avoids {K} (l : list K) (body : K -> prog unit) :
  (forall x, avoids P tenantID (body x)) ->
  avoids P tenantID (for_each l body).
Proof.
  intros Hb. induction l as [|x l IH]; [exact I|].
  cbn [for_each]. apply avoids_bind; [apply Hb | intros _; exact IH].
Qed.

Lemma GetTenantConfig_other_avoids ctx t :
  t <> tenantID -> avoids P tenantID (GetTenantConfig filepath_Join ctx t).
Proof.
  intros Hne.
  unfold GetTenantConfig, loadTenantConfig, setupTenantWatcher, locked,
    getTenantConfigPath, createTenantProvider, call_cleanup, logf.
  harmless.
Qed.

Lemma calls_avoid g :
  api_call filepath_Join g -> goroutine_avoids P tenantID g.
Proof.
  intros [ctx t|ctx|t| | |]; unfold goroutine_avoids; cbn [projT2 go].
  - destruct (decide (t = tenantID)) as [->|Hne];
      [apply own_call_avoids | apply GetTenantConfig_other_avoids, Hne].
  - unfold TenantAwareConfig_GetProvider.
    destruct (decide (GetProvider_tenantID ctx = tenantID)) as [->|Hne];
      [apply own_call_avoids | apply GetTenantConfig_other_avoids, Hne].
  - unfold InvalidateTenantConfig, locked, call_cleanup, logf. harmless.
  - unfold GetTenantConfigStats, rlocked, getLoadedTenantsUnsafe. harmless.
  - unfold GetConfigDirectory. harmless.
  - unfold Shutdown, locked. harmless.
    apply for_each_avoids. intros [t c]. unfold call_cleanup, logf. harmless.
Qed.

Lemma left_alone_step sys sys' :
  left_alone P tenantID sys -> step filepath_Join Env sys sys' ->
  left_alone P tenantID sys'.
Proof.
  intros (HP & Hc & Hsub & Hsp & Hpool) Hstep.
  destruct Hstep as [sys sys' Hrun|s l g Hcall|s l t path ev err Hin
                    |s l t path rest Hspawn|s l w' Hfiles Henv];
    unfold left_alone; cbn [shared pool] in *.
  - destruct Hrun as [A X e k x s s' l1 l2 Hh]. cbn [shared pool] in *.
    apply Forall_app in Hpool as [Hl1 Hl2].
    apply Forall_cons in Hl2 as [[Hne Hk] Hl2].
    cbn [projT2 go] in Hne, Hk.
    destruct (handle_keeps_absent e s x s' Hh Hne) as (H1 & H2 & H3).
    repeat split; eauto.
    apply Forall_app. split; [exact Hl1|].
    apply Forall_cons. split; [|exact Hl2].
    exact (Hk s x s' HP Hh).
  - repeat split; auto. apply Forall_app. split; [exact Hpool|].
    apply Forall_cons. split; [apply calls_avoid, Hcall | apply Forall_nil_2].
  - repeat split; auto. apply Forall_app. split; [exact Hpool|].
    apply Forall_cons. split; [|apply Forall_nil_2].
    apply watcher_callback_avoids. intros ->. exact (Hsub path Hin).
  - cbn [world set_world tm set_spawned subscriptions spawned].
    assert (Hne : t <> tenantID).
    { intros ->. apply (Hsp path). rewrite Hspawn. left. }
    repeat split; auto.
    + intros p Hin. apply (Hsp p). rewrite Hspawn. right. exact Hin.
    + apply Forall_app. split; [exact Hpool|].
      apply Forall_cons. split; [|apply Forall_nil_2].
      apply preload_goroutine_avoids, Hne.
  - pose proof (P_env s w' HP Hfiles Henv) as HP'.
    destruct Hfiles as (_ & _ & Hs & _ & Hg).
    cbn [world set_world tm]. rewrite Hs, Hg. repeat split; auto.
Qed.

Lemma left_alone_rtc sys sys' :
  left_alone P tenantID sys -> rtc (step filepath_Join Env) sys sys' ->
  left_alone P tenantID sys'.
Proof.
  intros H Hrtc. induction Hrtc as [|x y z Hxy _ IH]; [exact H|].
  apply IH, (left_alone_step x y H Hxy).
Qed.

End LeftAlone.

Section Reachable.
Import Config Sched.

Variable filepath_Join : list string -> string.
Variable Env : World -> Prop.

(** No operation of the manager changes its base configuration, its
    directory, the files or the loader's verdicts. *)
Lemma handle_frame {X} (e : tmE X) s x s' :
  handle e s = Step x s' ->
  baseConfig (tm s') = baseConfig (tm s)
  /\ configDirectory (tm s') = configDirectory (tm s)
  /\ fs_stat (world s') = fs_stat (world s)
  /\ loadable (world s') = loadable (world s).
Proof.
  intros Hh.
  destruct e; cbn [handle] in Hh;
    repeat match type of Hh with
           | (if ?b then _ else _) = _ => destruct b eqn:?
           | match ?n with O => _ | S _ => _ end = _ => destruct n eqn:?
           end;
    try discriminate Hh;
    try (injection Hh as <- <-; cbn; auto; fail).
  - unfold new_provider in Hh. destruct (loadable (world s) path);
      cbn in Hh; injection Hh as <- <-; cbn; auto.
  - unfold new_watcher in Hh.
    destruct (loadable (world s) path && watchable (world s) path);
      cbn in Hh; injection Hh as <- <-; cbn; auto.
Qed.

(** *** The default tenant *)

Lemma default_left_alone base dir w sys :
  subscriptions w = [] -> spawned w = [] ->
  rtc (step filepath_Join Env) (boot base dir w) sys ->
  left_alone (base_is base) "default" sys.
Proof.
  intros Hsub Hsp Hrtc.
  eapply (left_alone_rtc filepath_Join Env (base_is base) "default");
    [| | | | |exact Hrtc].
  - intros X e s x s' HP Hh. unfold base_is in *.
    destruct (handle_frame e s x s' Hh) as (-> & _). exact HP.
  - intros s w' HP _ _. exact HP.
  - intros s rest HP. exact HP.
  - intros ctx. unfold GetTenantConfig.
    rewrite decide_True by reflexivity. apply avoids_trigger.
    cbn. tauto.
  - unfold left_alone, boot. cbn. rewrite Hsub, Hsp.
    repeat split; try apply lookup_empty; try (intros ?; apply not_elem_of_nil).
    apply Forall_nil_2.
Qed.

(** C4.  In every state that the service reaches from a new manager
    (calls arriving and running interleaved, watcher callbacks firing,
    preloading goroutines running, files changing), the cache has no entry
    for [default], and [GetTenantConfig] for [default] returns the base
    provider and leaves the state as it is. *)
Theorem default_tenant_never_cached base dir st ld wt next ctx sys :
  rtc (step filepath_Join Env)
      (boot base dir (fresh_world st ld wt next)) sys ->
  tenantConfigs (tm (shared sys)) !! "default" = None
  /\ exec (GetTenantConfig filepath_Join ctx "default") (shared sys)
     = Done (GetProvider base ctx) (shared sys).
Proof.
  intros Hrtc.
  destruct (default_left_alone base dir (fresh_world st ld wt next) sys
              eq_refl eq_refl Hrtc) as (Hbase & Hc & _).
  split; [exact Hc|].
  rewrite GetTenantConfig_default. unfold base_is in Hbase.
  rewrite Hbase. reflexivity.
Qed.

(** *** A tenant whose file stays missing or stays unloadable *)

Lemma bad_file_handle base dir missing path {X} (e : tmE X) s x s' :
  bad_file base dir missing path s -> handle e s = Step x s' ->
  bad_file base dir missing path s'.
Proof.
  intros (Hb & Hd & Hf) Hh. unfold bad_file, file_fails in *.
  destruct (handle_frame e s x s' Hh) as (-> & -> & -> & ->). auto.
Qed.

(** One operation further along a program in normal form: it creates
    nothing for the tenant; [HP] is what is known of the state it meets
    and [Hh] what that state answers. *)
Ltac walk x HP Hh :=
  cbn [bind avoids creates]; split; [tauto|];
  let s := fresh "s" in let s' := fresh "s" in
  intros s x s' HP Hh.

Lemma bad_file_call_avoids base dir missing tenantID ctx :
  tenantID <> "default" ->
  avoids (bad_file base dir missing
            (filepath_Join [dir; tenantID; "kratos.yaml"])) tenantID
         (GetTenantConfig filepath_Join ctx tenantID).
Proof.
  intros Hne. unfold GetTenantConfig. rewrite decide_False by exact Hne.
  unfold loadTenantConfig, locked, getTenantConfigPath,
    createTenantProvider, logf, trigger.
  walk u1 HP1 Hh1. walk o1 HP2 Hh2. destruct o1.
  { walk u2 HP3 Hh3. exact I. }
  walk u2 HP3 Hh3. walk u3 HP4 Hh4. walk o2 HP5 Hh5. destruct o2.
  { walk u4 HP6 Hh6. exact I. }
  walk d HP6 Hh6. cbn in Hh6. injection Hh6 as <- <-.
  destruct HP6 as (_ & Hd & _). rewrite Hd.
  walk r HP7 Hh7. cbn in Hh7. injection Hh7 as <- <-.
  destruct HP7 as (_ & _ & Hf). unfold file_fails in Hf.
  destruct (IsNotExist _) eqn:Hex.
  { walk u5 HP8 Hh8. walk u6 HP9 Hh9. walk u7 HP10 Hh10. exact I. }
  walk p HP8 Hh8. cbn in Hh8. unfold new_provider in Hh8.
  destruct HP8 as (_ & _ & Hf'). unfold file_fails in Hf'.
  destruct missing.
  { rewrite Hf in Hex. discriminate Hex. }
  rewrite Hf' in Hh8. cbn in Hh8. injection Hh8 as <- <-.
  walk u5 HP9 Hh9. walk u6 HP10 Hh10. walk u7 HP11 Hh11. exact I.
Qed.

Lemma bad_tenant_left_alone base dir missing tenantID w sys :
  tenantID <> "default" ->
  (forall w', Env w' ->
     file_fails missing (filepath_Join [dir; tenantID; "kratos.yaml"]) w') ->
  Env w -> subscriptions w = [] -> spawned w = [] ->
  rtc (step filepath_Join Env) (boot base dir w) sys ->
  left_alone
    (bad_file base dir missing (filepath_Join [dir; tenantID; "kratos.yaml"]))
    tenantID sys.
Proof.
  intros Hne HEnv Hw Hsub Hsp Hrtc.
  eapply (left_alone_rtc filepath_Join Env); [| | | | |exact Hrtc].
  - intros X e s x s'. apply bad_file_handle.
  - intros s w' (Hb & Hd & _) _ Hw'. repeat split; auto.
  - intros s rest HP. exact HP.
  - intros ctx. apply bad_file_call_avoids, Hne.
  - unfold left_alone, boot. cbn. rewrite Hsub, Hsp.
    repeat split; try apply lookup_empty;
      try (intros ?; apply not_elem_of_nil);
      try apply Forall_nil_2; apply HEnv, Hw.
Qed.

(** C5.  A tenant other than [default] whose file is missing, or does not
    load, and stays so.  In every state that the service reaches from a new
    manager the cache has no entry for the tenant.  When nobody holds the
    mutex there, any number of [GetTenantConfig] calls in a row all return
    the base provider and leave the manager as it was; when the file is
    there, each call hands it to the loader again; and
    [GetTenantConfigStats] afterwards does not list the tenant. No call
    fails. *)
Theorem missing_or_failing_tenant_falls_back
    base dir missing st ld wt next tenantID ctx n sys :
  tenantID <> "default" ->
  (forall w, Env w ->
     file_fails missing (filepath_Join [dir; tenantID; "kratos.yaml"]) w) ->
  Env (fresh_world st ld wt next) ->
  rtc (step filepath_Join Env)
      (boot base dir (fresh_world st ld wt next)) sys ->
  tenantConfigs (tm (shared sys)) !! tenantID = None
  /\ (unlocked (shared sys) ->
      exists s',
        exec_all (replicate n (GetTenantConfig filepath_Join ctx tenantID))
                 (shared sys)
        = Done (replicate n (GetProvider base ctx)) s'
        /\ tm s' = tm (shared sys)
        /\ (fs_stat (world (shared sys))
              (filepath_Join [dir; tenantID; "kratos.yaml"])
            <> stat_not_exist ->
            loads (world s')
            = (replicate n (filepath_Join [dir; tenantID; "kratos.yaml"])
               ++ loads (world (shared sys)))%list)
        /\ exists stats,
            exec GetTenantConfigStats s' = Done stats s'
            /\ (tenantID ∉ loaded_tenant_ids stats)
            /\ loaded_tenants_count stats
               = size (tenantConfigs (tm (shared sys)))).
Proof.
  intros Hne HEnv Hw Hrtc.
  destruct (bad_tenant_left_alone base dir missing tenantID _ sys
              Hne HEnv Hw eq_refl eq_refl Hrtc)
    as ((Hb & Hd & Hf) & Hc & _).
  split; [exact Hc|]. intros Hmu.
  destruct (fallback_repeats filepath_Join ctx tenantID (shared sys) n
              Hne Hmu Hc) as (s' & Hrun & Htm & Hloads & Hstats).
  { rewrite Hd. unfold file_fails in Hf. destruct missing; auto. }
  rewrite Hb, Hd in *. exists s'. auto.
Qed.

End Reachable.

(** ** Concurrent first resolutions of one tenant *)

Section FirstResolve.
Import Config Sched.

Variable filepath_Join : list string -> string.
Variables (tenantID dir : string).

Abbreviation path := (filepath_Join [dir; tenantID; "kratos.yaml"]).

Lemma total_app f l1 l2 : total f (l1 ++ l2) = total f l1 + total f l2.
Proof.
  induction l1 as [|ph l1 IH]; [reflexivity|].
  cbn [app total foldr] in *. fold (total f (l1 ++ l2)). rewrite IH.
  fold (total f l1). lia.
Qed.

Lemma total_cons f ph l : total f (ph :: l) = f ph + total f l.
Proof. reflexivity. Qed.

Lemma total_le f g l : (forall ph, f ph <= g ph) -> total f l <= total g l.
Proof.
  intros Hfg. induction l as [|ph l IH]; [reflexivity|].
  rewrite !total_cons. specialize (Hfg ph). lia.
Qed.

Lemma stored_le_write l : total has_stored l <= total holds_write l.
Proof. apply total_le. intros []; cbn; lia. Qed.

Lemma loaded_le_write l : total has_loaded l <= total holds_write l.
Proof. apply total_le. intros []; cbn; lia. Qed.

Lemma file_good_handle {X} (e : tmE X) s x s' :
  handle e s = Step x s' -> file_good dir path s -> file_good dir path s'.
Proof.
  intros Hh (Hd & Hs & Hl). unfold file_good.
  destruct (handle_frame e s x s' Hh) as (_ & -> & -> & ->). auto.
Qed.

Lemma follows_GetTenantConfig ctx :
  tenantID <> "default" ->
  follows tenantID dir path Outside
    (GetTenantConfig filepath_Join ctx tenantID).
Proof.
  intros Hne. unfold GetTenantConfig. rewrite decide_False by exact Hne.
  unfold loadTenantConfig, locked, getTenantConfigPath,
    createTenantProvider, setupTenantWatcher, logf, trigger.
  cbn [bind follows].
  split; [reflexivity|]. split; [reflexivity|]. left. split; [reflexivity|].
  split; [reflexivity|]. left. split; [reflexivity|].
  split; [reflexivity|]. right. split; [reflexivity|].
  split; [reflexivity|]. split; [reflexivity|]. split; [reflexivity|].
  intros r Hr. rewrite Hr. cbn [bind follows].
  split; [reflexivity|]. split; [reflexivity|]. intros a.
  split; [reflexivity|]. split; [reflexivity|]. right. reflexivity.
Qed.

Ltac rebuild p1 ph' p2 Hp1 Hp2 Hgood' :=
  exists (p1 ++ ph' :: p2)%list; unfold racing;
  cbn [shared pool tm world mu writer readers tenantConfigs loads
       set_mu set_world set_tenantConfigs Nat.b2n];
  rewrite ?total_app, ?total_cons;
  cbn [holds_read holds_write has_loaded has_stored];
  split; [apply Forall2_app; [exact Hp1|];
          apply Forall2_cons; split; [|exact Hp2];
          unfold goroutine_follows; cbn [projT2 go]; auto|];
  split; [exact Hgood'|].

(** The invariant of the race: a step of any goroutine leads to a state
    that is again described by phases for all goroutines. *)
Lemma racing_step loads0 phs sys sys' :
  racing tenantID dir path loads0 phs sys -> run_step sys sys' ->
  exists phs', racing tenantID dir path loads0 phs' sys'.
Proof.
  intros (Hpool & Hgood & Hr & Hw & Hwr & Hst & Hld) Hstep.
  destruct Hstep as [A X e k x s s' l1 l2 Hh]. cbn [shared pool] in *.
  apply Forall2_app_inv_r in Hpool as (p1 & p2' & Hp1 & Hp2 & ->).
  apply Forall2_cons_inv_r in Hp2 as (ph & p2 & Hf & Hp2 & ->).
  unfold goroutine_follows in Hf. cbn [projT2 go] in Hf.
  rewrite ?total_app, ?total_cons in *.
  pose proof (file_good_handle e s x s' Hh Hgood) as Hgood'.
  pose proof (stored_le_write p1) as Hs1.
  pose proof (stored_le_write p2) as Hs2.
  assert (Hb : Nat.b2n (writer (mu (tm s))) <= 1)
    by (destruct (writer (mu (tm s))); cbn; lia).
  destruct e; cbn [follows] in Hf; try contradiction; cbn [handle] in Hh.
  - (* MuLock *)
    destruct (writer (mu (tm s))) eqn:Ew; [discriminate Hh|].
    destruct (readers (mu (tm s))) eqn:Er; [|discriminate Hh].
    injection Hh as <- <-. cbn [Nat.b2n] in *.
    destruct Hf as [[-> Hf] | ->]; cbn [holds_write] in Hw; [|lia].
    rebuild p1 Writing p2 Hp1 Hp2 Hgood'.
    cbn [holds_read holds_write has_loaded has_stored] in *.
    repeat split; auto; lia.
  - (* MuRLock *)
    destruct Hf as [-> Hf].
    destruct (writer (mu (tm s))) eqn:Ew; [discriminate Hh|].
    injection Hh as <- <-.
    rebuild p1 Reading p2 Hp1 Hp2 Hgood'.
    cbn [holds_read holds_write has_loaded has_stored Nat.b2n] in *.
    repeat split; auto; try lia.
  - (* MuRUnlock *)
    destruct Hf as [-> Hf].
    destruct (readers (mu (tm s))) as [|n] eqn:Er; [discriminate Hh|].
    injection Hh as <- <-.
    rebuild p1 Outside p2 Hp1 Hp2 Hgood'.
    cbn [holds_read holds_write has_loaded has_stored] in *.
    repeat split; auto; try lia. intros Ew. specialize (Hwr Ew). lia.
  - (* CfgLookup *)
    destruct Hf as [-> Hf]. injection Hh as <- <-.
    assert (Hnone : tenantConfigs (tm s) !! tenantID = None).
    { apply Hst. destruct Hf as [[-> _]|[-> _]];
        cbn [holds_read holds_write has_stored] in *; [|lia].
      destruct (writer (mu (tm s))) eqn:Ew; cbn [Nat.b2n] in *; [|lia].
      specialize (Hwr eq_refl). lia. }
    rewrite Hnone.
    destruct Hf as [[-> Hf]|[-> Hf]].
    + rebuild p1 Reading p2 Hp1 Hp2 Hgood'. repeat split; auto.
    + rebuild p1 Writing p2 Hp1 Hp2 Hgood'. repeat split; auto.
  - (* CfgStore *)
    destruct Hf as (-> & -> & Hf). injection Hh as <- <-.
    rebuild p1 Stored p2 Hp1 Hp2 Hgood'.
    cbn [holds_read holds_write has_loaded has_stored] in *.
    repeat split; auto; lia.
  - (* ConfigDirectory *)
    destruct Hf as [-> Hf]. injection Hh as <- <-.
    destruct Hgood as (Hd & _). rewrite Hd.
    rebuild p1 Writing p2 Hp1 Hp2 Hgood'. repeat split; auto.
  - (* OsStat *)
    destruct Hf as (-> & -> & Hf). injection Hh as <- <-.
    destruct Hgood as (_ & Hex & _).
    rebuild p1 Writing p2 Hp1 Hp2 Hgood'. repeat split; auto.
  - (* ConfigxNew *)
    destruct Hf as (-> & -> & Hf). unfold new_provider in Hh.
    destruct Hgood as (_ & _ & Hl). rewrite Hl in Hh. cbn in Hh.
    injection Hh as <- <-.
    rebuild p1 Loaded p2 Hp1 Hp2 Hgood'.
    cbn [holds_read holds_write has_loaded has_stored] in *.
    repeat split; auto; try lia.
    rewrite Hld.
    replace (total has_loaded p1 + (1 + total has_loaded p2))
      with (S (total has_loaded p1 + (0 + total has_loaded p2))) by lia.
    reflexivity.
Qed.

Lemma racing_rtc loads0 phs sys sys' :
  racing tenantID dir path loads0 phs sys -> rtc run_step sys sys' ->
  exists phs', racing tenantID dir path loads0 phs' sys'.
Proof.
  intros H Hrtc. revert phs H.
  induction Hrtc as [|x y z Hxy _ IH]; intros phs H; [eauto|].
  destruct (racing_step loads0 phs x y H Hxy) as (phs' & H').
  exact (IH phs' H').
Qed.

(** Once a goroutine has stored the entry, nothing moves any more: that
    goroutine waits for the write lock it holds, no other holds a lock, and
    the next operation of each of them is to take one. *)
Lemma racing_stuck loads0 phs sys sys' :
  racing tenantID dir path loads0 phs sys ->
  total has_stored phs = 1 ->
  ~ run_step sys sys'.
Proof.
  intros (Hpool & Hgood & Hr & Hw & Hwr & Hst & Hld) Hone Hstep.
  destruct Hstep as [A X e k x s s' l1 l2 Hh]. cbn [shared pool] in *.
  apply Forall2_app_inv_r in Hpool as (p1 & p2' & Hp1 & Hp2 & ->).
  apply Forall2_cons_inv_r in Hp2 as (ph & p2 & Hf & Hp2 & ->).
  unfold goroutine_follows in Hf. cbn [projT2 go] in Hf.
  rewrite ?total_app, ?total_cons in *.
  pose proof (stored_le_write p1) as Hs1.
  pose proof (stored_le_write p2) as Hs2.
  assert (Hph : has_stored ph <= holds_write ph) by (destruct ph; cbn; lia).
  destruct (writer (mu (tm s))) eqn:Ew; cbn [Nat.b2n] in Hw; [|lia].
  specialize (Hwr eq_refl).
  destruct e; cbn [follows] in Hf; try contradiction; cbn [handle] in Hh;
    rewrite ?Ew in Hh; try discriminate Hh.
  - (* MuRUnlock *)
    destruct Hf as [-> _]. cbn [holds_read] in Hr. lia.
  - (* CfgLookup *)
    destruct Hf as [_ [[-> _]|[-> _]]];
      cbn [holds_read holds_write has_stored] in *; lia.
  - (* CfgStore *)
    destruct Hf as (-> & _). cbn [holds_write has_stored] in *. lia.
  - (* ConfigDirectory *)
    destruct Hf as [-> _]. cbn [holds_write has_stored] in *. lia.
  - (* OsStat *)
    destruct Hf as (-> & _). cbn [holds_write has_stored] in *. lia.
  - (* ConfigxNew *)
    destruct Hf as (-> & _). cbn [holds_write has_stored] in *. lia.
Qed.

Lemma racing_stored loads0 phs sys provider :
  racing tenantID dir path loads0 phs sys ->
  tenantConfigs (tm (shared sys)) !! tenantID = Some provider ->
  total has_stored phs = 1.
Proof.
  intros (_ & _ & _ & Hw & _ & Hst & _) Hc.
  pose proof (stored_le_write phs).
  destruct (total has_stored phs) as [|n] eqn:E.
  - rewrite Hst in Hc by reflexivity. discriminate Hc.
  - destruct (writer (mu (tm (shared sys)))); cbn [Nat.b2n] in Hw; lia.
Qed.

Lemma racing_start ctxs s :
  tenantID <> "default" ->
  unlocked s ->
  tenantConfigs (tm s) !! tenantID = None ->
  file_good dir path s ->
  racing tenantID dir path (loads (world s)) ((fun _ => Outside) <$> ctxs)
    (mkSystem s
       ((fun ctx => go (GetTenantConfig filepath_Join ctx tenantID)) <$> ctxs)).
Proof.
  intros Hne Hmu Hc Hgood. unfold unlocked in Hmu.
  assert (Hz : forall f, f Outside = 0 ->
               total f ((fun _ : Context => Outside) <$> ctxs) = 0).
  { intros f Hf. induction ctxs as [|c l IH]; [reflexivity|].
    cbn [fmap list_fmap]. rewrite total_cons, Hf. exact IH. }
  unfold racing. cbn [shared pool]. rewrite Hmu. cbn [readers writer Nat.b2n].
  rewrite !Hz by reflexivity. destruct Hgood as (Hd & Hex & Hl).
  repeat split; auto.
  clear Hz. induction ctxs as [|c l IH]; [constructor|].
  cbn [fmap list_fmap]. constructor; [|apply IH].
  apply follows_GetTenantConfig, Hne.
Qed.

Lemma racing_none_returned loads0 phs sys :
  racing tenantID dir path loads0 phs sys -> Forall (fun g => ~ returned g) (pool sys).
Proof.
  intros (Hpool & _). induction Hpool as [|ph g phs l Hf _ IH]; [constructor|].
  constructor; [|exact IH].
  unfold goroutine_follows in Hf. unfold returned.
  destruct (projT2 g); [intros _; exact Hf | tauto].
Qed.

Lemma racing_one_load loads0 phs sys :
  racing tenantID dir path loads0 phs sys ->
  exists n, n <= 1
    /\ loads (world (shared sys)) = (replicate n path ++ loads0)%list.
Proof.
  intros (_ & _ & _ & Hw & _ & _ & Hld).
  exists (total has_loaded phs). split; [|exact Hld].
  pose proof (loaded_le_write phs).
  destruct (writer (mu (tm (shared sys)))); cbn [Nat.b2n] in Hw; lia.
Qed.

End FirstResolve.

Section Race.
Import Config Sched.

Variable filepath_Join : list string -> string.

(** C9.  Any number of goroutines call [GetTenantConfig] for one tenant
    other than [default], not cached, whose file exists and loads, and run
    interleaved in any order.  In every state they reach the loader has been
    called at most once, and no goroutine has returned: the one that loads
    and stores the entry waits in [setupTenantWatcher] for the write lock
    it holds itself, and that lock keeps every other one from reading the
    entry. With at least one caller they do reach a state with the entry
    stored and the mutex locked for writing from which no goroutine can take
    a step. No caller receives a provider. *)
Theorem concurrent_first_resolves_never_return tenantID ctxs s :
  tenantID <> "default" ->
  unlocked s ->
  tenantConfigs (tm s) !! tenantID = None ->
  IsNotExist (fs_stat (world s)
    (filepath_Join [configDirectory (tm s); tenantID; "kratos.yaml"]))
  = false ->
  loadable (world s)
    (filepath_Join [configDirectory (tm s); tenantID; "kratos.yaml"])
  = true ->
  (forall sys',
     rtc run_step
       (mkSystem s
          ((fun ctx => go (GetTenantConfig filepath_Join ctx tenantID)) <$> ctxs))
       sys' ->
     Forall (fun g => ~ returned g) (pool sys')
     /\ exists n, n <= 1
          /\ loads (world (shared sys'))
             = (replicate n
                  (filepath_Join
                     [configDirectory (tm s); tenantID; "kratos.yaml"])
                ++ loads (world s))%list)
  /\ (ctxs <> [] ->
      exists sys',
        rtc run_step
          (mkSystem s
             ((fun ctx => go (GetTenantConfig filepath_Join ctx tenantID))
                <$> ctxs))
          sys'
        /\ (forall sys'', ~ run_step sys' sys'')
        /\ is_Some (tenantConfigs (tm (shared sys')) !! tenantID)
        /\ writer (mu (tm (shared sys'))) = true).
Proof.
  intros Hne Hmu Hc Hex Hld.
  pose proof (racing_start filepath_Join tenantID _ ctxs s Hne Hmu Hc
                (conj eq_refl (conj Hex Hld))) as Hstart.
  split.
  - intros sys' Hrtc.
    destruct (racing_rtc filepath_Join tenantID _ _ _ _ sys' Hstart Hrtc)
      as (phs' & Hrace).
    split.
    + exact (racing_none_returned _ _ _ _ _ _ Hrace).
    + exact (racing_one_load _ _ _ _ _ _ Hrace).
  - destruct ctxs as [|ctx rest]; [congruence|]. intros _.
    destruct (GetTenantConfig_blocks filepath_Join ctx tenantID s
                Hne Hmu Hc Hex Hld) as (s' & Hblock & Hsome & Hw).
    pose proof (exec_run (GetTenantConfig filepath_Join ctx tenantID) s []
                  ((fun c => go (GetTenantConfig filepath_Join c tenantID))
                     <$> rest)) as Hrun.
    rewrite Hblock in Hrun. destruct Hrun as (X & e & k & Hrtc & _).
    cbn [app] in Hrtc. cbn [fmap list_fmap] in *.
    destruct (racing_rtc filepath_Join tenantID _ _ _ _ _ Hstart Hrtc)
      as (phs' & Hrace).
    eexists. split; [exact Hrtc|]. cbn [shared].
    split; [|split; [exact Hsome | exact Hw]].
    intros sys''. destruct Hsome as [provider Hsome].
    apply (racing_stuck filepath_Join tenantID _ _ _ _ sys'' Hrace).
    exact (racing_stored filepath_Join tenantID _ _ _ _ _ Hrace Hsome).
Qed.

End Race.

(** ** The theorems at work on the scenario *)

Section Witnesses.
Import X Config Sched Scenario.

Lemma tenant_of_context_defaults_witness :
  GetTenantID odd_context = DefaultTenantID
  /\ GetProvider_tenantID odd_context = "default".
Proof.
  destruct (tenant_of_context_defaults odd_context) as [Hx Hc]. split.
  - apply Hx. right. exists T_int, (D_int 7). split; [reflexivity | discriminate].
  - apply Hc. left. reflexivity.
Defined.

Lemma GetTenantConfig_valid_file_never_returns_witness :
  exists s',
    exec (GetTenantConfig join Background "tenant1") start = Blocked s'
    /\ tenantConfigs (tm s')
       = <["tenant1" := next_provider (world start)]> (tenantConfigs (tm start))
    /\ writer (mu (tm s')) = true
    /\ watchers (tm s') = watchers (tm start)
    /\ subscriptions (world s') = subscriptions (world start).
Proof.
  apply (GetTenantConfig_valid_file_never_returns join Background "tenant1" start).
  - discriminate.
  - reflexivity.
  - reflexivity.
  - vm_compute. reflexivity.
  - vm_compute. reflexivity.
Defined.

(** One call for [default] has arrived at a new manager. *)
Lemma default_tenant_never_cached_witness :
  tenantConfigs (tm start) !! "default" = None
  /\ exec (GetTenantConfig join Background "default") start
     = Done (GetProvider base Background) start.
Proof.
  apply (default_tenant_never_cached join (fun _ => True) base "/cfg"
           (fs_stat files) (loadable files) (watchable files) 1 Background
           (mkSystem start [go (GetTenantConfig join Background "default")])).
  apply rtc_once.
  apply (step_call join (fun _ => True) start []
           (go (GetTenantConfig join Background "default"))).
  apply call_GetTenantConfig.
Defined.

(** [nonexistent] has no directory under [/cfg]: two calls in a row at a new
    manager. *)
Lemma missing_or_failing_tenant_falls_back_witness :
  tenantConfigs (tm start) !! "nonexistent" = None
  /\ (unlocked start ->
      exists s',
        exec_all (replicate 2 (GetTenantConfig join Background "nonexistent"))
                 start
        = Done (replicate 2 (GetProvider base Background)) s'
        /\ tm s' = tm start
        /\ (fs_stat (world start) (join ["/cfg"; "nonexistent"; "kratos.yaml"])
            <> stat_not_exist ->
            loads (world s')
            = (replicate 2 (join ["/cfg"; "nonexistent"; "kratos.yaml"])
               ++ loads (world start))%list)
        /\ exists stats,
            exec GetTenantConfigStats s' = Done stats s'
            /\ ("nonexistent" ∉ loaded_tenant_ids stats)
            /\ loaded_tenants_count stats = size (tenantConfigs (tm start))).
Proof.
  apply (missing_or_failing_tenant_falls_back join
           (file_fails true "/cfg/nonexistent/kratos.yaml")
           base "/cfg" true (fs_stat files) (loadable files) (watchable files)
           1 "nonexistent" Background 2 (mkSystem start [])).
  - discriminate.
  - intros w Hw. exact Hw.
  - vm_compute. reflexivity.
  - apply rtc_refl.
Defined.


Lemma InvalidateTenantConfig_idempotent_witness :
  exists s1,
    exec (InvalidateTenantConfig "tenant1") warm = Done tt s1
    /\ tenantConfigs (tm s1) = delete "tenant1" (tenantConfigs (tm warm))
    /\ watchers (tm s1) = delete "tenant1" (watchers (tm warm))
    /\ tenantConfigs (tm s1) !! "tenant1" = None
    /\ watchers (tm s1) !! "tenant1" = None
    /\ (tenantConfigs (tm warm) !! "tenant1" = None ->
        watchers (tm warm) !! "tenant1" = None -> tm s1 = tm warm)
    /\ exists s2,
        exec (InvalidateTenantConfig "tenant1") s1 = Done tt s2
        /\ tm s2 = tm s1.
Proof.
  apply (InvalidateTenantConfig_idempotent "tenant1" warm). reflexivity.
Defined.


(** Two callers for [tenant1] at a new manager. *)
Lemma concurrent_first_resolves_never_return_witness :
  (forall sys',
     rtc run_step
       (mkSystem start
          ((fun ctx => go (GetTenantConfig join ctx "tenant1"))
             <$> [Background; Background]))
       sys' ->
     Forall (fun g => ~ returned g) (pool sys')
     /\ exists n, n <= 1
          /\ loads (world (shared sys'))
             = (replicate n
                  (join [configDirectory (tm start); "tenant1"; "kratos.yaml"])
                ++ loads (world start))%list)
  /\ ([Background; Background] <> [] ->
      exists sys',
        rtc run_step
          (mkSystem start
             ((fun ctx => go (GetTenantConfig join ctx "tenant1"))
                <$> [Background; Background]))
          sys'
        /\ (forall sys'', ~ run_step sys' sys'')
        /\ is_Some (tenantConfigs (tm (shared sys')) !! "tenant1")
        /\ writer (mu (tm (shared sys'))) = true).
Proof.
  apply (concurrent_first_resolves_never_return join "tenant1"
           [Background; Background] start).
  - discriminate.
  - reflexivity.
  - reflexivity.
  - vm_compute. reflexivity.
  - vm_compute. reflexivity.
Defined.

End Witnesses.

(** * Further properties of the code *)

(** ** The extractor and the context accessors *)

Section MoreExtractor.
Import X Config Notions.

Lemma TrimLeftSpace_all_space s : all_space s = true -> TrimLeftSpace s = "".
Proof.
  induction s as [|c t IH]; [reflexivity|].
  cbn [all_space TrimLeftSpace]. intros H.
  apply andb_prop in H as [Hc Ht]. rewrite Hc. apply IH, Ht.
Qed.

(** X1.  A request without the [X-Tenant-Id] header, or whose header value
    is empty or made of ASCII white space only, gets the default tenant. *)
Theorem extractTenantID_blank (r : Request) :
  (Header r !! TenantIDHeader = None -> extractTenantID r = DefaultTenantID)
  /\ (all_space (Header_Get (Header r) TenantIDHeader) = true ->
      extractTenantID r = DefaultTenantID).
Proof.
  assert (Hblank : all_space (Header_Get (Header r) TenantIDHeader) = true ->
                   extractTenantID r = DefaultTenantID).
  { intros H. unfold extractTenantID, TrimSpace.
    rewrite (TrimLeftSpace_all_space _ H). reflexivity. }
  split; [|exact Hblank].
  intros H. apply Hblank. unfold Header_Get. rewrite H. reflexivity.
Qed.

(** X2.  The identifier extracted from any request is never empty and holds
    no path separator of either direction. *)
Theorem extractTenantID_nonempty_no_separator (r : Request) :
  extractTenantID r <> ""
  /\ Contains (extractTenantID r) "/" = false
  /\ Contains (extractTenantID r) "\" = false.
Proof.
  split; [|apply extractTenantID_no_separator].
  unfold extractTenantID.
  destruct (decide _); [discriminate|].
  destruct (decide _) as [|Hne]; [discriminate | exact Hne].
Qed.

(** Cutting out a pattern that does not occur changes nothing. *)
Lemma cut_absent old s : Contains s old = false -> cut old 0 s = s.
Proof.
  induction s as [|c t IH]; [reflexivity|].
  cbn [Contains cut]. intros H. apply orb_false_elim in H as [Hp Ht].
  rewrite Hp. f_equal. apply IH, Ht.
Qed.

Lemma ReplaceAll_empty_absent s old :
  Contains s old = false -> ReplaceAll_empty s old = s.
Proof. intros H. destruct old; [reflexivity|]. apply cut_absent, H. Qed.

(** X3.  A header value that has no white space around it, is not empty and
    holds neither [..] nor a path separator is returned as it is. *)
Theorem extractTenantID_clean (r : Request) (v : string) :
  Header_Get (Header r) TenantIDHeader = v ->
  TrimSpace v = v ->
  v <> "" ->
  Contains v ".." = false ->
  Contains v "/" = false ->
  Contains v "\" = false ->
  extractTenantID r = v.
Proof.
  intros Hv Htrim Hne Hdots Hslash Hback. unfold extractTenantID.
  rewrite Hv, Htrim. rewrite decide_False by exact Hne.
  rewrite (ReplaceAll_empty_absent v "..") by exact Hdots.
  rewrite (ReplaceAll_empty_absent v "/") by exact Hslash.
  rewrite (ReplaceAll_empty_absent v "\") by exact Hback.
  rewrite decide_False by exact Hne. reflexivity.
Qed.

(** X4.  The middleware hands on the response writer and the headers as they
    are; in the context it hands on, [GetTenantID] reads the identifier
    extracted from the request, and every other key reads what it read in
    the request's own context. *)
Theorem TenantMiddleware_round_trip {RW R : Type}
    (rw : RW) (r : Request) (next : RW -> Request -> R) :
  exists r',
    TenantMiddleware rw r next = next rw r'
    /\ Header r' = Header r
    /\ GetTenantID (Context_ r') = extractTenantID r
    /\ forall key, key <> TenantIDKey ->
         Value (Context_ r') key = Value (Context_ r) key.
Proof.
  eexists. split; [reflexivity|]. cbn [WithContext Header Context_].
  split; [reflexivity|]. split.
  - unfold GetTenantID. cbn [Value]. rewrite decide_True by reflexivity.
    reflexivity.
  - intros key Hne. cbn [Value].
    rewrite decide_False by (intros E; apply Hne; symmetry; exact E).
    reflexivity.
Qed.

(** X5.  [GetTenantID] reads back what [SetTenantID] set last, whatever the
    context held before, and [SetTenantID] changes the value of no other
    key. *)
Theorem SetTenantID_round_trip (ctx : Context) (older tenantID : string) :
  GetTenantID (SetTenantID (SetTenantID ctx older) tenantID) = tenantID
  /\ GetTenantID (SetTenantID ctx tenantID) = tenantID
  /\ forall key, key <> TenantIDKey ->
       Value (SetTenantID ctx tenantID) key = Value ctx key.
Proof.
  unfold GetTenantID, SetTenantID. cbn [Value].
  rewrite !decide_True by reflexivity. repeat split.
  intros key Hne.
  rewrite decide_False by (intros E; apply Hne; symmetry; exact E).
  reflexivity.
Qed.

(** X6.  [TenantAwareConfig.GetProvider] resolves the string bound last
    under [config.TenantContextKey("tenant_id")], and a binding of any other
    key, [x.TenantIDKey] among them, does not change what it resolves. *)
Theorem GetProvider_tenantID_reads_own_key (ctx : Context) :
  (forall tenantID,
     GetProvider_tenantID
       (WithValue ctx (Config.TenantContextKey "tenant_id") (of_string tenantID))
     = tenantID)
  /\ (forall key v, key <> Config.TenantContextKey "tenant_id" ->
        GetProvider_tenantID (WithValue ctx key v) = GetProvider_tenantID ctx)
  /\ (forall tenantID,
        GetProvider_tenantID (SetTenantID ctx tenantID)
        = GetProvider_tenantID ctx).
Proof.
  assert (Hother : forall key v, key <> Config.TenantContextKey "tenant_id" ->
            GetProvider_tenantID (WithValue ctx key v) = GetProvider_tenantID ctx).
  { intros key v Hne. unfold GetProvider_tenantID. cbn [Value].
    rewrite decide_False by exact Hne. reflexivity. }
  split; [|split; [exact Hother|]].
  - intros tenantID. unfold GetProvider_tenantID. cbn [Value].
    rewrite decide_True by reflexivity. reflexivity.
  - intros tenantID. apply Hother. discriminate.
Qed.

End MoreExtractor.

(** ** The manager's methods, one goroutine at a time *)

Section MoreSequential.
Import Config Sched Notions.

Variable filepath_Join : list string -> string.

Ltac sim1 :=
  cbn [exec bind trigger handle logf call_cleanup locked rlocked
       set_mu set_world set_tenantConfigs set_watchers write_log spawn
       tm world mu writer readers tenantConfigs watchers baseConfig
       configDirectory fs_stat loadable watchable next_provider loads
       subscriptions log spawned getTenantConfigPath createTenantProvider
       getLoadedTenantsUnsafe IsNotExist final_state].

Ltac sim := sim1; unfold new_provider, new_watcher; sim1.

Ltac open_state s m base cfgs dir ws w :=
  destruct s as [[m base cfgs dir ws] w];
  cbn [tm world mu writer readers tenantConfigs watchers baseConfig
       configDirectory] in *.

(** X7.  While no writer holds the mutex, [GetTenantConfigStats] returns
    and leaves the state as it was, other readers included; its counts are
    the sizes of the two maps, and its identifier list has as many entries
    as the first count, no repetition, and exactly the cached tenants. *)
Theorem GetTenantConfigStats_consistent s :
  writer (mu (tm s)) = false ->
  exists stats,
    exec GetTenantConfigStats s = Done stats s
    /\ loaded_tenants_count stats = size (tenantConfigs (tm s))
    /\ active_watchers_count stats = size (watchers (tm s))
    /\ length (loaded_tenant_ids stats) = loaded_tenants_count stats
    /\ NoDup (loaded_tenant_ids stats)
    /\ (forall t, t ∈ loaded_tenant_ids stats
                  <-> is_Some (tenantConfigs (tm s) !! t))
    /\ config_directory stats = configDirectory (tm s).
Proof.
  intros Hw. open_state s m base cfgs dir ws w. destruct m as [wr n].
  cbn [writer] in Hw. subst wr.
  unfold GetTenantConfigStats. sim.
  eexists. split; [reflexivity|].
  cbn [loaded_tenants_count active_watchers_count loaded_tenant_ids
       config_directory].
  repeat split.
  - rewrite length_fmap. apply length_map_to_list.
  - apply NoDup_fst_map_to_list.
  - intros Hin. apply list_elem_of_fmap in Hin as ([k v] & -> & Hin).
    apply elem_of_map_to_list in Hin. cbn. eauto.
  - intros [v Hv]. apply list_elem_of_fmap. exists (t, v).
    split; [reflexivity | apply elem_of_map_to_list, Hv].
Qed.

(** X8.  A first call for a tenant whose file exists and loads leaves the
    mutex locked for writing for good; in the state it leaves, every call
    for a tenant other than [default], every [InvalidateTenantConfig],
    [GetTenantConfigStats] and [Shutdown] wait without changing anything,
    while the default tenant and [GetConfigDirectory] are still answered. *)
Theorem one_valid_tenant_hangs_the_rest ctx tenantID s :
  tenantID <> "default" ->
  unlocked s ->
  tenantConfigs (tm s) !! tenantID = None ->
  IsNotExist (fs_stat (world s)
    (filepath_Join [configDirectory (tm s); tenantID; "kratos.yaml"]))
  = false ->
  loadable (world s)
    (filepath_Join [configDirectory (tm s); tenantID; "kratos.yaml"])
  = true ->
  exists s',
    exec (GetTenantConfig filepath_Join ctx tenantID) s = Blocked s'
    /\ (forall ctx' t, t <> "default" ->
          exec (GetTenantConfig filepath_Join ctx' t) s' = Blocked s')
    /\ (forall t, exec (InvalidateTenantConfig t) s' = Blocked s')
    /\ exec GetTenantConfigStats s' = Blocked s'
    /\ exec Shutdown s' = Blocked s'
    /\ (forall ctx',
          exec (GetTenantConfig filepath_Join ctx' "default") s'
          = Done (GetProvider (baseConfig (tm s')) ctx') s')
    /\ exec GetConfigDirectory s' = Done (configDirectory (tm s')) s'.
Proof.
  intros Hne Hmu Hc Hst Hld.
  destruct (GetTenantConfig_blocks filepath_Join ctx tenantID s
              Hne Hmu Hc Hst Hld) as (s' & Hrun & _ & Hw).
  exists s'. split; [exact Hrun|].
  open_state s' m base cfgs dir ws w. destruct m as [wr n].
  cbn [writer] in Hw. subst wr.
  repeat split.
  intros ctx' t Ht. unfold GetTenantConfig.
  rewrite decide_False by exact Ht. reflexivity.
Qed.

(** X9.  A tenant that is cached is answered from the cache while no writer
    holds the mutex, other readers or not: the cached provider is returned
    and nothing changes, so neither the file system nor the loader is
    asked. The second look of [loadTenantConfig], under the write lock, does
    the same for an entry that arrived in between. *)
Theorem cache_hit_touches_nothing ctx tenantID provider s :
  tenantID <> "default" ->
  tenantConfigs (tm s) !! tenantID = Some provider ->
  (writer (mu (tm s)) = false ->
   exec (GetTenantConfig filepath_Join ctx tenantID) s = Done provider s)
  /\ (unlocked s ->
      exec (loadTenantConfig filepath_Join ctx tenantID) s = Done provider s).
Proof.
  intros Hne Hc. open_state s m base cfgs dir ws w. split.
  - intros Hw. destruct m as [wr n]. cbn [writer] in Hw. subst wr.
    unfold GetTenantConfig. rewrite decide_False by exact Hne.
    sim. rewrite Hc. reflexivity.
  - intros Hmu. unfold unlocked in Hmu. cbn [tm mu] in Hmu. subst m.
    unfold loadTenantConfig. sim. rewrite Hc. reflexivity.
Qed.

(** X10.  [InvalidateTenantConfig] touches the entries of no other tenant,
    in the cache or in the watcher map, and neither the loader nor the
    subscriptions. The next [GetTenantConfig] for the invalidated tenant,
    with its file in place, hands the file to the loader again, whether the
    load then succeeds or not. *)
Theorem InvalidateTenantConfig_frame_then_reload tenantID s :
  unlocked s ->
  exists s1,
    exec (InvalidateTenantConfig tenantID) s = Done tt s1
    /\ (forall t, t <> tenantID ->
          tenantConfigs (tm s1) !! t = tenantConfigs (tm s) !! t
          /\ watchers (tm s1) !! t = watchers (tm s) !! t)
    /\ loads (world s1) = loads (world s)
    /\ subscriptions (world s1) = subscriptions (world s)
    /\ unlocked s1
    /\ forall ctx,
         tenantID <> "default" ->
         fs_stat (world s)
           (filepath_Join [configDirectory (tm s); tenantID; "kratos.yaml"])
         <> stat_not_exist ->
         loads (world (final_state
                  (exec (GetTenantConfig filepath_Join ctx tenantID) s1)))
         = filepath_Join [configDirectory (tm s); tenantID; "kratos.yaml"]
           :: loads (world s).
Proof.
  intros Hmu. open_state s m base cfgs dir ws w. unfold unlocked in Hmu.
  cbn [tm mu] in Hmu. subst m.
  assert (Hreload : forall ws' lg ctx,
    tenantID <> "default" ->
    fs_stat w (filepath_Join [dir; tenantID; "kratos.yaml"]) <> stat_not_exist ->
    loads (world (final_state
      (exec (GetTenantConfig filepath_Join ctx tenantID)
         {| tm := {| mu := {| writer := false; readers := 0 |};
                     baseConfig := base;
                     tenantConfigs := delete tenantID cfgs;
                     configDirectory := dir; watchers := ws' |};
            world := {| fs_stat := fs_stat w; loadable := loadable w;
                        watchable := watchable w;
                        next_provider := next_provider w; loads := loads w;
                        subscriptions := subscriptions w; log := lg;
                        spawned := spawned w |} |})))
    = filepath_Join [dir; tenantID; "kratos.yaml"] :: loads w).
  { intros ws' lg ctx Hne Hst.
    unfold GetTenantConfig, loadTenantConfig, setupTenantWatcher.
    rewrite decide_False by exact Hne.
    sim. rewrite lookup_delete_eq. sim. rewrite lookup_delete_eq. sim.
    destruct (fs_stat w _) eqn:Est; [|congruence|]; sim;
      destruct (loadable w _) eqn:Eld; sim; reflexivity. }
  unfold InvalidateTenantConfig. sim.
  destruct (ws !! tenantID) as [c|] eqn:Hw; sim.
  - eexists. split; [reflexivity|].
    cbn [tm world tenantConfigs watchers loads subscriptions].
    split; [|split; [reflexivity|split; [reflexivity|split; [reflexivity|]]]].
    + intros t Ht.
      split; first [reflexivity | apply lookup_delete_ne; congruence].
    + intros ctx. apply Hreload.
  - eexists. split; [reflexivity|].
    cbn [tm world tenantConfigs watchers loads subscriptions].
    split; [|split; [reflexivity|split; [reflexivity|split; [reflexivity|]]]].
    + intros t Ht.
      split; first [reflexivity | apply lookup_delete_ne; congruence].
    + intros ctx. apply Hreload.
Qed.

(** X11.  [preloadTenantConfig] calls the loader before it asks for the
    mutex. When the load fails it returns no provider and leaves the manager
    as it was; when it succeeds it returns the new provider, which is then
    the tenant's entry, and it changes the entry of no other tenant, no
    watcher and no subscription, and gives the mutex back. *)
Theorem preloadTenantConfig_result ctx tenantID configPath s :
  unlocked s ->
  exists r s',
    exec (preloadTenantConfig ctx tenantID configPath) s = Done r s'
    /\ loads (world s') = configPath :: loads (world s)
    /\ watchers (tm s') = watchers (tm s)
    /\ subscriptions (world s') = subscriptions (world s)
    /\ unlocked s'
    /\ (forall t, t <> tenantID ->
          tenantConfigs (tm s') !! t = tenantConfigs (tm s) !! t)
    /\ (loadable (world s) configPath = false ->
        r = None /\ tm s' = tm s)
    /\ (loadable (world s) configPath = true ->
        r = Some (next_provider (world s))
        /\ tenantConfigs (tm s') !! tenantID = r).
Proof.
  intros Hmu. open_state s m base cfgs dir ws w. unfold unlocked in *.
  cbn [tm mu] in Hmu. subst m.
  unfold preloadTenantConfig. sim.
  destruct (loadable w configPath) eqn:Hld; sim.
  - eexists _, _. split; [reflexivity|].
    cbn [tm world mu tenantConfigs watchers loads subscriptions].
    repeat split; try discriminate.
    + intros t Ht. apply lookup_insert_ne. congruence.
    + apply lookup_insert_eq.
  - eexists _, _. split; [reflexivity|].
    cbn [tm world mu tenantConfigs watchers loads subscriptions].
    repeat split; discriminate.
Qed.

(** X12.  [setupTenantWatcher], called with the mutex free: it first calls
    the cleanup closure of a watcher already stored for the tenant. When the
    watched provider can be created, the tenant's watcher is replaced by a
    new closure and the new callback is subscribed beside the ones that were;
    when it cannot, the watcher map and the subscriptions stay as they were,
    the closure just called included. The cache is not touched and the mutex
    is given back. *)
Theorem setupTenantWatcher_alone tenantID configPath s :
  unlocked s ->
  exists s',
    exec (setupTenantWatcher tenantID configPath) s = Done tt s'
    /\ tenantConfigs (tm s') = tenantConfigs (tm s)
    /\ unlocked s'
    /\ (forall c, watchers (tm s) !! tenantID = Some c ->
          mkLog Debug (cl_tenantID c) "Tenant config watcher cleanup completed"
          ∈ log (world s'))
    /\ (loadable (world s) configPath && watchable (world s) configPath = true ->
        watchers (tm s')
        = <[tenantID := mkCleanup tenantID (next_provider (world s))]>
            (watchers (tm s))
        /\ subscriptions (world s')
           = (tenantID, configPath) :: subscriptions (world s))
    /\ (loadable (world s) configPath && watchable (world s) configPath = false ->
        watchers (tm s') = watchers (tm s)
        /\ subscriptions (world s') = subscriptions (world s)).
Proof.
  intros Hmu. open_state s m base cfgs dir ws w. unfold unlocked in *.
  cbn [tm mu] in Hmu. subst m.
  unfold setupTenantWatcher. sim.
  destruct (ws !! tenantID) as [c|] eqn:Hw; sim;
    destruct (loadable w configPath && watchable w configPath) eqn:Hok; sim;
    (eexists; split; [reflexivity|]);
    cbn [tm world mu tenantConfigs watchers log subscriptions];
    repeat split; try discriminate;
    intros c' [= <-]; repeat constructor.
Qed.

(** X13.  The watcher callback never waits for the mutex, whoever holds it.
    With an error it writes one log line and changes nothing else. Without
    one it deletes the tenant's cache entry at once, leaves the mutex, the
    watchers and every other entry as they are, and starts one preloading
    goroutine for the tenant and path it was attached with. *)
Theorem watcher_callback_never_waits tenantID configPath event s :
  (forall err,
     exists s',
       exec (watcher_callback tenantID configPath event (Some err)) s
       = Done tt s'
       /\ tm s' = tm s
       /\ spawned (world s') = spawned (world s)
       /\ log (world s')
          = mkLog Error tenantID "File watcher error for tenant config"
            :: log (world s))
  /\ exists s',
       exec (watcher_callback tenantID configPath event None) s = Done tt s'
       /\ tenantConfigs (tm s') = delete tenantID (tenantConfigs (tm s))
       /\ mu (tm s') = mu (tm s)
       /\ watchers (tm s') = watchers (tm s)
       /\ spawned (world s')
          = (spawned (world s) ++ [(tenantID, configPath)])%list
       /\ loads (world s') = loads (world s).
Proof.
  open_state s m base cfgs dir ws w. split.
  - intros err. unfold watcher_callback. sim.
    eexists. split; [reflexivity|]. cbn. auto.
  - unfold watcher_callback, invalidateTenantConfigUnsafe. sim.
    eexists. split; [reflexivity|]. cbn. auto.
Qed.

(** X14.  A second [Shutdown] changes nothing and writes nothing. The first
    one leaves the callbacks subscribed: a callback that fires after it
    still deletes its tenant's cache entry and starts a preloading
    goroutine. With no watcher stored, [Shutdown] leaves the manager as it
    was. *)
Theorem Shutdown_twice_and_after s :
  unlocked s ->
  exists s1,
    exec Shutdown s = Done tt s1
    /\ exec Shutdown s1 = Done tt s1
    /\ subscriptions (world s1) = subscriptions (world s)
    /\ (watchers (tm s) = ∅ -> s1 = s)
    /\ forall tenantID configPath event,
         exists s2,
           exec (watcher_callback tenantID configPath event None) s1
           = Done tt s2
           /\ tenantConfigs (tm s2) = delete tenantID (tenantConfigs (tm s))
           /\ (tenantID, configPath) ∈ spawned (world s2).
Proof.
  intros Hmu. open_state s m base cfgs dir ws w. unfold unlocked in Hmu.
  cbn [tm mu] in Hmu. subst m.
  unfold Shutdown.
  cbn [exec bind trigger handle locked set_mu set_watchers tm world mu
       writer readers watchers].
  rewrite !exec_bind.
  match goal with |- context [exec (for_each _ _) ?st] =>
    destruct (exec_stop_all (map_to_list ws) st)
      as (s1 & Hrun & Htm & Hsub & entries & Hlog & _) end.
  rewrite Hrun. destruct s1 as [tm1 w1]. cbn [tm world] in *. subst tm1.
  sim. eexists. split; [reflexivity|]. split; [|split; [exact Hsub|split]].
  - cbn [exec bind trigger handle locked set_mu set_watchers tm world mu
         writer readers watchers].
    rewrite map_to_list_empty. reflexivity.
  - intros ->. revert Hrun. rewrite map_to_list_empty.
    cbn [for_each exec]. intros [= <-]. reflexivity.
  - intros tenantID configPath event.
    unfold watcher_callback, invalidateTenantConfigUnsafe. sim.
    eexists. split; [reflexivity|]. cbn. split; [reflexivity|].
    apply elem_of_app. right. left.
Qed.

Lemma GetProvider_tenantID_default ctx :
  not_a_string (Value ctx (Config.TenantContextKey "tenant_id")) ->
  GetProvider_tenantID ctx = "default".
Proof.
  intros H. apply not_a_string_assert in H. revert H.
  unfold GetProvider_tenantID.
  destruct (Value ctx _) as [|t d]; [reflexivity|].
  destruct t, d; simpl; congruence.
Qed.

(** X15.  What the middleware and [TenantAwareConfig.GetProvider] do
    together: for a request whose own context holds no string under
    [config.TenantContextKey("tenant_id")], [GetProvider] on the context
    that the middleware hands on returns the base provider, whatever the
    [X-Tenant-Id] header says, without waiting and without changing the
    manager. *)
Theorem middleware_then_GetProvider_is_base (rw : unit) (r : X.Request) s :
  not_a_string (Value (X.Context_ r) (Config.TenantContextKey "tenant_id")) ->
  exists ctx,
    X.TenantMiddleware rw r
      (fun _ r' =>
         (X.Context_ r',
          exec (TenantAwareConfig_GetProvider filepath_Join (X.Context_ r')) s))
    = (ctx, Done (GetProvider (baseConfig (tm s)) ctx) s)
    /\ X.GetTenantID ctx = X.extractTenantID r.
Proof.
  intros Habsent. eexists. unfold X.TenantMiddleware.
  cbn [X.WithContext X.Context_]. split.
  - f_equal. unfold TenantAwareConfig_GetProvider.
    rewrite GetProvider_tenantID_ignores_middleware.
    rewrite (GetProvider_tenantID_default _ Habsent).
    apply GetTenantConfig_default.
  - unfold X.GetTenantID. cbn [Value]. rewrite decide_True by reflexivity.
    reflexivity.
Qed.

End MoreSequential.

(** ** The service as a whole *)

Section MoreReachable.
Import Config Sched Notions.

Variable filepath_Join : list string -> string.
Variable Env : World -> Prop.

Lemma step_keeps_config sys sys' :
  step filepath_Join Env sys sys' ->
  baseConfig (tm (shared sys')) = baseConfig (tm (shared sys))
  /\ configDirectory (tm (shared sys')) = configDirectory (tm (shared sys)).
Proof.
  intros [sys1 sys2 Hrun| | | |]; cbn [shared tm set_world]; auto.
  destruct Hrun as [A X e k x s s' l1 l2 Hh]. cbn [shared].
  destruct (handle_frame e s x s' Hh) as (Hb & Hd & _). auto.
Qed.

Lemma rtc_step_keeps_config sys sys' :
  rtc (step filepath_Join Env) sys sys' ->
  baseConfig (tm (shared sys')) = baseConfig (tm (shared sys))
  /\ configDirectory (tm (shared sys')) = configDirectory (tm (shared sys)).
Proof.
  intros Hrtc. induction Hrtc as [sys|sys sys1 sys2 Hstep _ IH]; [auto|].
  destruct (step_keeps_config _ _ Hstep) as [Hb Hd].
  destruct IH as [-> ->]. auto.
Qed.

(** X16.  In every state that the service reaches, the manager has the base
    configuration and the directory it was created with, and
    [GetConfigDirectory] returns that directory whoever holds the mutex. *)
Theorem config_directory_is_fixed base dir w sys :
  rtc (step filepath_Join Env) (boot base dir w) sys ->
  baseConfig (tm (shared sys)) = base
  /\ configDirectory (tm (shared sys)) = dir
  /\ exec GetConfigDirectory (shared sys) = Done dir (shared sys).
Proof.
  intros Hrtc. destruct (rtc_step_keeps_config _ _ Hrtc) as [Hb Hd].
  cbn in Hb, Hd. repeat split; [exact Hb | exact Hd |].
  unfold GetConfigDirectory. cbn. rewrite Hd. reflexivity.
Qed.

Lemma tally_app f l1 l2 : tally f (l1 ++ l2) = tally f l1 + tally f l2.
Proof.
  induction l1 as [|h l1 IH]; [reflexivity|].
  cbn [app tally foldr] in *. fold (tally f (l1 ++ l2)). rewrite IH.
  fold (tally f l1). lia.
Qed.

Lemma tally_cons f h l : tally f (h :: l) = f h + tally f l.
Proof. reflexivity. Qed.

Lemma entry_le_lock l : tally holds_entry l <= tally holds_lock l.
Proof.
  induction l as [|h l IH]; [reflexivity|].
  rewrite !tally_cons. destruct h; cbn; lia.
Qed.

(** The loop of [Shutdown] only writes log lines. *)
Lemma tame_stop_all {A B} h (ws : list (string * Cleanup))
    (f : unit -> prog A) (g : A -> prog B) :
  tame h (bind (f tt) g) ->
  tame h (bind (bind (for_each ws (fun '(tenantID, cleanup) =>
                 bind (call_cleanup cleanup) (fun _ =>
                   logf Debug tenantID "Stopped file watcher for tenant")))
               f) g).
Proof.
  intros Hk. induction ws as [|[t c] ws IH].
  - cbn [for_each bind]. exact Hk.
  - cbn [for_each bind call_cleanup logf trigger tame].
    intros []. cbn [bind tame]. intros []. exact IH.
Qed.

Ltac tamed :=
  repeat first
    [ exact I
    | reflexivity
    | progress cbn [tame bind IsNotExist]
    | split
    | intros []
    | intros ?
    | match goal with
      | |- tame _ (match ?o with _ => _ end) => destruct o
      end ].

Lemma GetTenantConfig_tame ctx tenantID :
  tame Free (GetTenantConfig filepath_Join ctx tenantID).
Proof.
  unfold GetTenantConfig, loadTenantConfig, setupTenantWatcher, locked,
    getTenantConfigPath, createTenantProvider, call_cleanup, logf, trigger.
  destruct (decide _); tamed.
Qed.

Lemma api_call_tame g :
  api_call filepath_Join g -> goroutine_tame Free g.
Proof.
  intros [ctx t|ctx|t| | |]; unfold goroutine_tame; cbn [projT2 go].
  - apply GetTenantConfig_tame.
  - apply GetTenantConfig_tame.
  - unfold InvalidateTenantConfig, locked, call_cleanup, logf, trigger. tamed.
  - unfold GetTenantConfigStats, rlocked, getLoadedTenantsUnsafe, trigger.
    tamed.
  - unfold GetConfigDirectory, trigger. tamed.
  - unfold Shutdown, locked. cbn [bind trigger tame]. intros ws.
    apply tame_stop_all. tamed.
Qed.

Ltac rearm h1 h' h2 Hp1 Hp2 :=
  exists (h1 ++ h' :: h2)%list; unfold unarmed;
  cbn [shared pool tm world mu writer readers tenantConfigs watchers
       subscriptions spawned set_mu set_world set_tenantConfigs set_watchers
       write_log Nat.b2n];
  rewrite ?tally_app, ?tally_cons;
  split; [apply Forall2_app; [exact Hp1|];
          apply Forall2_cons; split; [|exact Hp2];
          unfold goroutine_tame; cbn [projT2 go]; auto|].

Lemma unarmed_run_step hs sys sys' :
  unarmed hs sys -> run_step sys sys' -> exists hs', unarmed hs' sys'.
Proof.
  intros (Hpool & Hw & Hc & Hws & Hsub & Hsp) Hstep.
  destruct Hstep as [A X e k x s s' l1 l2 Hh]. cbn [shared pool] in *.
  apply Forall2_app_inv_r in Hpool as (h1 & h2' & Hp1 & Hp2 & ->).
  apply Forall2_cons_inv_r in Hp2 as (h & h2 & Hf & Hp2 & ->).
  unfold goroutine_tame in Hf. cbn [projT2 go] in Hf.
  rewrite ?tally_app, ?tally_cons in *.
  pose proof (entry_le_lock h1) as He1.
  pose proof (entry_le_lock h2) as He2.
  assert (Hb : Nat.b2n (writer (mu (tm s))) <= 1)
    by (destruct (writer (mu (tm s))); cbn; lia).
  destruct e; cbn [tame] in Hf; try contradiction; cbn [handle] in Hh;
    try (progress unfold new_provider in Hh;
         destruct (loadable (world s) path));
    repeat match type of Hh with
           | (if ?b then _ else _) = _ => destruct b eqn:?
           | match ?n with O => _ | S _ => _ end = _ => destruct n eqn:?
           end;
    try discriminate Hh; cbn in Hh; injection Hh as <- <-;
    cbn [Nat.b2n] in *.
  - (* MuLock *)
    destruct h; cbn [holds_lock] in Hw; try lia.
    rearm h1 Holding h2 Hp1 Hp2.
    cbn [holds_lock holds_entry] in *. repeat split; auto; lia.
  - (* MuUnlock *)
    destruct Hf as [-> Hf].
    rearm h1 Free h2 Hp1 Hp2.
    cbn [holds_lock holds_entry] in *. repeat split; auto; lia.
  - (* MuRLock *)
    rearm h1 h h2 Hp1 Hp2. repeat split; auto.
  - (* MuRUnlock *)
    rearm h1 h h2 Hp1 Hp2. repeat split; auto.
  - (* CfgLookup *)
    rearm h1 h h2 Hp1 Hp2. repeat split; auto.
  - (* CfgStore *)
    destruct Hf as [-> Hf].
    rearm h1 Stored h2 Hp1 Hp2.
    cbn [holds_lock holds_entry] in *. repeat split; auto; lia.
  - (* CfgDelete *)
    rearm h1 h h2 Hp1 Hp2. repeat split; auto.
    intros H0. rewrite (Hc H0). apply delete_empty.
  - (* CfgLen *)
    rearm h1 h h2 Hp1 Hp2. repeat split; auto.
  - (* CfgRange *)
    rearm h1 h h2 Hp1 Hp2. repeat split; auto.
  - (* WatchLookup *)
    rearm h1 h h2 Hp1 Hp2. repeat split; auto.
  - (* WatchDelete *)
    rearm h1 h h2 Hp1 Hp2. repeat split; auto.
    rewrite Hws. apply delete_empty.
  - (* WatchLen *)
    rearm h1 h h2 Hp1 Hp2. repeat split; auto.
  - (* WatchRange *)
    rearm h1 h h2 Hp1 Hp2. repeat split; auto.
  - (* WatchReset *)
    rearm h1 h h2 Hp1 Hp2. repeat split; auto.
  - (* BaseGetProvider *)
    rearm h1 h h2 Hp1 Hp2. repeat split; auto.
  - (* ConfigDirectory *)
    rearm h1 h h2 Hp1 Hp2. repeat split; auto.
  - (* OsStat *)
    rearm h1 h h2 Hp1 Hp2. repeat split; auto.
  - (* ConfigxNew, loaded *)
    rearm h1 h h2 Hp1 Hp2. repeat split; auto.
  - (* ConfigxNew, failed *)
    rearm h1 h h2 Hp1 Hp2. repeat split; auto.
  - (* Log *)
    rearm h1 h h2 Hp1 Hp2. repeat split; auto.
Qed.

Lemma unarmed_step hs sys sys' :
  unarmed hs sys -> step filepath_Join Env sys sys' ->
  exists hs', unarmed hs' sys'.
Proof.
  intros H Hstep.
  destruct Hstep as [sys sys' Hrun|s l g Hcall|s l t path ev err Hin
                    |s l t path rest Hspawn|s l w' Hfiles Henv].
  - exact (unarmed_run_step hs sys sys' H Hrun).
  - destruct H as (Hpool & Hw & Hc & Hws & Hsub & Hsp). cbn [shared pool] in *.
    exists (hs ++ [Free])%list. unfold unarmed. cbn [shared pool].
    rewrite !tally_app, !tally_cons. cbn [holds_lock holds_entry tally foldr].
    split; [apply Forall2_app; [exact Hpool|];
            apply Forall2_cons; split; [apply api_call_tame, Hcall|constructor]|].
    repeat split; auto; try lia. intros H0. apply Hc. lia.
  - destruct H as (_ & _ & _ & _ & Hsub & _). cbn [shared] in Hsub.
    rewrite Hsub in Hin. inversion Hin.
  - destruct H as (_ & _ & _ & _ & _ & Hsp). cbn [shared] in Hsp.
    rewrite Hsp in Hspawn. discriminate Hspawn.
  - destruct H as (Hpool & Hw & Hc & Hws & Hsub & Hsp). cbn [shared pool] in *.
    destruct Hfiles as (_ & _ & Hs & _ & Hg).
    exists hs. unfold unarmed. cbn [shared pool tm world set_world].
    rewrite Hs, Hg. repeat split; auto.
Qed.

Lemma unarmed_rtc sys sys' :
  (exists hs, unarmed hs sys) -> rtc (step filepath_Join Env) sys sys' ->
  exists hs', unarmed hs' sys'.
Proof.
  intros H Hrtc. induction Hrtc as [|x y z Hxy _ IH]; [exact H|].
  destruct H as (hs & H). apply IH, (unarmed_step hs x y H Hxy).
Qed.

(** X17.  In every state that the service reaches from a new manager, no
    watcher is stored and no callback is subscribed, so no change of a file
    is ever noticed; and whenever no writer holds the mutex the cache is
    empty, so [GetTenantConfigStats], when it returns, reports no loaded
    tenant and no watcher. *)
Theorem service_never_arms_a_watcher base dir st ld wt next sys :
  rtc (step filepath_Join Env)
      (boot base dir (fresh_world st ld wt next)) sys ->
  watchers (tm (shared sys)) = ∅
  /\ subscriptions (world (shared sys)) = []
  /\ (writer (mu (tm (shared sys))) = false ->
      tenantConfigs (tm (shared sys)) = ∅
      /\ exec GetTenantConfigStats (shared sys)
         = Done {| loaded_tenants_count := 0; active_watchers_count := 0;
                   loaded_tenant_ids := [];
                   config_directory := dir |} (shared sys)).
Proof.
  intros Hrtc.
  assert (H : exists hs, unarmed hs sys).
  { apply (unarmed_rtc (boot base dir (fresh_world st ld wt next)));
      [|exact Hrtc].
    exists []. unfold unarmed, boot. cbn. repeat split; auto; constructor. }
  destruct (rtc_step_keeps_config _ _ Hrtc) as [_ Hd]. cbn in Hd.
  destruct H as (hs & _ & Hw & Hc & Hws & Hsub & _).
  split; [exact Hws|]. split; [exact Hsub|]. intros Hfree.
  rewrite Hfree in Hw. cbn [Nat.b2n] in Hw.
  pose proof (entry_le_lock hs) as Hle.
  assert (Hempty : tenantConfigs (tm (shared sys)) = ∅) by (apply Hc; lia).
  split; [exact Hempty|].
  destruct (shared sys) as [[m b cfgs d ws] w].
  cbn [tm mu writer tenantConfigs watchers configDirectory] in *.
  destruct m as [wr n]. cbn [writer] in Hfree. subst wr cfgs ws d.
  reflexivity.
Qed.

End MoreReachable.

(** ** The further properties at work on the scenario *)

Section MoreWitnesses.
Import X Config Sched Notions Scenario.

Lemma extractTenantID_clean_witness :
  extractTenantID (request_with_tenant "tenant1" Background) = "tenant1".
Proof.
  apply (extractTenantID_clean (request_with_tenant "tenant1" Background)
           "tenant1").
  - vm_compute. reflexivity.
  - vm_compute. reflexivity.
  - discriminate.
  - vm_compute. reflexivity.
  - vm_compute. reflexivity.
  - vm_compute. reflexivity.
Defined.

Lemma GetTenantConfigStats_consistent_witness :
  exists stats,
    exec GetTenantConfigStats warm = Done stats warm
    /\ length (loaded_tenant_ids stats) = loaded_tenants_count stats
    /\ NoDup (loaded_tenant_ids stats).
Proof.
  destruct (GetTenantConfigStats_consistent warm eq_refl)
    as (stats & Hrun & _ & _ & Hlen & Hnd & _).
  exists stats. auto.
Defined.

Lemma one_valid_tenant_hangs_the_rest_witness :
  exists s',
    exec (GetTenantConfig join Background "tenant1") start = Blocked s'
    /\ exec (GetTenantConfig join Background "nonexistent") s' = Blocked s'
    /\ exec GetTenantConfigStats s' = Blocked s'.
Proof.
  destruct (one_valid_tenant_hangs_the_rest join Background "tenant1" start)
    as (s' & Hrun & Hother & _ & Hstats & _).
  - discriminate.
  - reflexivity.
  - reflexivity.
  - vm_compute. reflexivity.
  - vm_compute. reflexivity.
  - exists s'. split; [exact Hrun|]. split; [|exact Hstats].
    apply Hother. discriminate.
Defined.

Lemma cache_hit_touches_nothing_witness :
  exec (GetTenantConfig join Background "tenant1") warm = Done 1 warm.
Proof.
  apply (cache_hit_touches_nothing join Background "tenant1" 1 warm).
  - discriminate.
  - vm_compute. reflexivity.
  - reflexivity.
Defined.

Lemma InvalidateTenantConfig_frame_then_reload_witness :
  exists s1,
    exec (InvalidateTenantConfig "tenant1") warm = Done tt s1
    /\ loads (world (final_state
                (exec (GetTenantConfig join Background "tenant1") s1)))
       = "/cfg/tenant1/kratos.yaml" :: loads (world warm).
Proof.
  destruct (InvalidateTenantConfig_frame_then_reload join "tenant1" warm
              eq_refl) as (s1 & Hrun & _ & _ & _ & _ & Hreload).
  exists s1. split; [exact Hrun|].
  apply (Hreload Background).
  - discriminate.
  - vm_compute. discriminate.
Defined.

Lemma preloadTenantConfig_result_witness :
  exists r s',
    exec (preloadTenantConfig Background "tenant1" "/cfg/tenant1/kratos.yaml")
         warm = Done r s'
    /\ unlocked s'.
Proof.
  destruct (preloadTenantConfig_result Background "tenant1"
              "/cfg/tenant1/kratos.yaml" warm eq_refl)
    as (r & s' & Hrun & _ & _ & _ & Hmu & _).
  exists r, s'. auto.
Defined.

Lemma setupTenantWatcher_alone_witness :
  exists s',
    exec (setupTenantWatcher "tenant1" "/cfg/tenant1/kratos.yaml") start
    = Done tt s'
    /\ unlocked s'.
Proof.
  destruct (setupTenantWatcher_alone "tenant1" "/cfg/tenant1/kratos.yaml"
              start eq_refl) as (s' & Hrun & _ & Hmu & _).
  exists s'. auto.
Defined.

Lemma Shutdown_twice_and_after_witness :
  exists s1,
    exec Shutdown warm = Done tt s1
    /\ exec Shutdown s1 = Done tt s1
    /\ subscriptions (world s1) = subscriptions (world warm).
Proof.
  destruct (Shutdown_twice_and_after warm eq_refl)
    as (s1 & H1 & H2 & H3 & _).
  exists s1. auto.
Defined.

Lemma middleware_then_GetProvider_is_base_witness :
  exists ctx,
    TenantMiddleware tt (request_with_tenant "tenant1" Background)
      (fun _ r' =>
         (Context_ r',
          exec (TenantAwareConfig_GetProvider join (Context_ r')) start))
    = (ctx, Done (GetProvider (baseConfig (tm start)) ctx) start)
    /\ GetTenantID ctx
       = extractTenantID (request_with_tenant "tenant1" Background).
Proof.
  apply (middleware_then_GetProvider_is_base join tt
           (request_with_tenant "tenant1" Background) start).
  left. reflexivity.
Defined.

(** One call for [tenant1] has arrived at a new manager. *)
Lemma config_directory_is_fixed_witness :
  exec GetConfigDirectory start = Done "/cfg" start.
Proof.
  apply (config_directory_is_fixed join (fun _ => True) base "/cfg" files
           (mkSystem start [go (GetTenantConfig join Background "tenant1")])).
  apply rtc_once.
  apply (step_call join (fun _ => True) start []
           (go (GetTenantConfig join Background "tenant1"))).
  apply call_GetTenantConfig.
Defined.

Lemma service_never_arms_a_watcher_witness :
  watchers (tm start) = ∅ /\ subscriptions (world start) = [].
Proof.
  destruct (service_never_arms_a_watcher join (fun _ => True) base "/cfg"
              (fs_stat files) (loadable files) (watchable files) 1
              (mkSystem start
                 [go (GetTenantConfig join Background "tenant1")]))
    as (Hw & Hs & _).
  - apply rtc_once.
    apply (step_call join (fun _ => True) start []
             (go (GetTenantConfig join Background "tenant1"))).
    apply call_GetTenantConfig.
  - split; [exact Hw | exact Hs].
Defined.

End MoreWitnesses.
